(** * u8timeseries.timeseries: the [TimeSeries] class over a model of pandas

    The development embeds [src/u8timeseries/timeseries.py].  The class is a
    thin layer over pandas, so the file has two parts:

    - [Pd], a model of the pandas and numpy operations the class calls
      (Series, index comparison, truth value of an array, frequency
      inference, offsets, reindexing, DataFrames);
    - [TimeSeries], the class itself, method by method, in an error monad
      whose errors are the Python exceptions the code can raise.

    The accessors are modelled a second time over an explicit store of numpy
    buffers ([Store]), where it shows whether an accessor returns a copy or a
    reference. *)

From Stdlib Require Import ZArith Floats String.
From stdpp Require Import base decidable option list sorting gmap strings.

#[local] Open Scope Z_scope.

(** ** Python exceptions and the error monad *)

(** The [assert] statements of the source, one constructor per statement, in
    source order. *)
Inductive assertion :=
  | assert_nonempty        (* line 19 *)
  | assert_datetime_index  (* line 20 *)
  | assert_freq            (* line 26 *)
  | assert_conf_lo         (* line 33 *)
  | assert_conf_hi         (* line 37 *)
  | assert_split_member    (* line 75 *)
  | assert_slice_order     (* line 87 *)
  | assert_slice_end       (* line 88 *)
  | assert_slice_start     (* line 89 *)
  | assert_same_time.      (* line 161 *)

Inductive exn :=
  | AssertionError (a : assertion)
  | ValueError
  | AttributeError
  | TypeError
  | KeyError
  | IndexError
  | OutOfBoundsDatetime.

(** The error kinds of the specification, and the exception that stands for
    each: every kind is the failure of one or more [assert] statements.  The
    other exceptions belong to no kind. *)
Inductive error_kind :=
  | EmptyInput | IrregularFrequency | ConfidenceIndexMismatch
  | InvalidRange | TimestampNotFound | IndexMismatch.

Definition kind_of (e : exn) : option error_kind :=
  match e with
  | AssertionError assert_nonempty => Some EmptyInput
  | AssertionError assert_freq => Some IrregularFrequency
  | AssertionError assert_conf_lo | AssertionError assert_conf_hi =>
      Some ConfidenceIndexMismatch
  | AssertionError assert_slice_order | AssertionError assert_slice_end
  | AssertionError assert_slice_start => Some InvalidRange
  | AssertionError assert_split_member => Some TimestampNotFound
  | AssertionError assert_same_time => Some IndexMismatch
  | _ => None
  end.

Inductive result (A : Type) :=
  | Ok (a : A)
  | Err (e : exn).
Arguments Ok {A} a.
Arguments Err {A} e.

#[global] Instance result_ret : MRet result := λ A a, Ok a.
#[global] Instance result_bind : MBind result := λ A B f m,
  match m with Ok a => f a | Err e => Err e end.

Definition is_Ok {A} (r : result A) : Prop := ∃ a, r = Ok a.

(** [assert c] on a boolean that has already been computed. *)
Definition py_assert (a : assertion) (c : bool) : result unit :=
  if c then Ok () else Err (AssertionError a).

(** ** The pandas model *)

Module Pd.

(** A timestamp is an instant in nanoseconds since the epoch, a timedelta a
    number of nanoseconds.  pandas stores both as signed 64-bit integers and
    keeps the smallest one, [iNaT], for NaT ("not a time"), so a timestamp
    ranges over [-I64_MAX .. I64_MAX]. *)
Abbreviation Timestamp := Z.
Abbreviation Timedelta := Z.

Definition I64_MAX : Z := 9223372036854775807.
Definition iNaT : Z := -9223372036854775808.

Definition in_bounds (t : Z) : bool := (iNaT <? t) && (t <=? I64_MAX).
Definition fits_int64 (z : Z) : bool := (iNaT <=? z) && (z <=? I64_MAX).

(** [ts + td] and [ts1 - ts2] on scalars: pandas raises OutOfBoundsDatetime
    when the result does not fit in 64 bits.  A result that lands on [iNaT]
    is NaT, and the model keeps it as that integer.  The only comparison
    the class gets to make with such a result is [end_ts > start_ts] on
    line 87, with [end_ts] the result: NaT is greater than no timestamp,
    and neither is the smallest integer.  (In [split] the first call of
    [slice] raises before the sum is looked at.) *)
Definition Timestamp_add (ts : Timestamp) (td : Timedelta) : result Timestamp :=
  if fits_int64 (ts + td) then Ok (ts + td) else Err OutOfBoundsDatetime.

Definition Timestamp_sub (ts1 ts2 : Timestamp) : result Timedelta :=
  if fits_int64 (ts1 - ts2) then Ok (ts1 - ts2) else Err OutOfBoundsDatetime.

(** Arithmetic on the 64-bit arrays themselves is not checked: it wraps. *)
Definition wrap64 (z : Z) : Z := (z + 2 ^ 63) `mod` 2 ^ 64 - 2 ^ 63.

Definition ONE_MICRO : Z := 1000.
Definition ONE_MILLI : Z := 1000 * ONE_MICRO.
Definition ONE_SECOND : Z := 1000 * ONE_MILLI.
Definition ONE_MINUTE : Z := 60 * ONE_SECOND.
Definition ONE_HOUR : Z := 60 * ONE_MINUTE.
Definition ONE_DAY : Z := 24 * ONE_HOUR.

(** *** The calendar *)

(** Monday is 0; 1970-01-01 was a Thursday. *)
Definition weekday (t : Timestamp) : Z := (t `div` ONE_DAY + 3) `mod` 7.

Record date := Date { year : Z; month : Z; day : Z }.

(** The date of a day number (days since 1970-01-01) in the proleptic
    Gregorian calendar, by eras of 400 years that start on 1 March. *)
Definition civil_from_days (z : Z) : date :=
  let z := z + 719468 in
  let era := z `div` 146097 in
  let doe := z - era * 146097 in
  let yoe := (doe - doe `div` 1460 + doe `div` 36524 - doe `div` 146096) `div` 365 in
  let doy := doe - (365 * yoe + yoe `div` 4 - yoe `div` 100) in
  let mp := (5 * doy + 2) `div` 153 in
  let d := doy - (153 * mp + 2) `div` 5 + 1 in
  let m := if mp <? 10 then mp + 3 else mp - 9 in
  Date (yoe + era * 400 + (if m <=? 2 then 1 else 0)) m d.

Definition date_of (t : Timestamp) : date := civil_from_days (t `div` ONE_DAY).

Definition is_leapyear (y : Z) : bool :=
  ((y `mod` 4 =? 0) && negb (y `mod` 100 =? 0)) || (y `mod` 400 =? 0).

Definition get_days_in_month (y m : Z) : Z :=
  if m =? 2 then (if is_leapyear y then 29 else 28)
  else if (m =? 4) || (m =? 6) || (m =? 9) || (m =? 11) then 30
  else 31.

(** A Series with a DatetimeIndex: labels and float64 values, position by
    position.  The index may be unsorted and may repeat a label. *)
Abbreviation Series := (list (Z * float)).

Definition index (s : Series) : list Timestamp := s.*1.
Definition values (s : Series) : list float := s.*2.

(** [pd.Series(data, index=idx)] for an array [data]: positional pairing;
    pandas refuses arrays of different lengths. *)
Definition Series_new (data : list float) (idx : list Timestamp) : result Series :=
  if bool_decide (length data = length idx) then Ok (zip idx data) else Err ValueError.

(** [s.sort_index()].  The sort is by label only.  (pandas' default sort is
    not stable; the order of the labels in the result does not depend on
    that, and an index with a repeated label has no frequency.) *)
Definition label_le (a b : Timestamp * float) : Prop := a.1 ≤ b.1.
#[global] Instance label_le_dec a b : Decision (label_le a b) := Z_le_dec _ _.

Definition sort_index (s : Series) : Series := merge_sort label_le s.

(** [idx_a == idx_b] on two indexes: pandas raises ValueError ("Lengths must
    match to compare") when the lengths differ, and otherwise returns the
    numpy array of the elementwise comparisons. *)
Definition index_eq (a b : list Timestamp) : result (list bool) :=
  if bool_decide (length a = length b) then Ok (zip_with Z.eqb a b) else Err ValueError.

(** [bool(arr)] of a numpy boolean array, which is what [assert arr]
    evaluates: the element of a one-element array, False for an empty one,
    and ValueError ("The truth value of an array with more than one element
    is ambiguous") for any longer one. *)
Definition truth (arr : list bool) : result bool :=
  match arr with
  | [] => Ok false
  | [b] => Ok b
  | _ :: _ :: _ => Err ValueError
  end.

(** The gaps between neighbours, as integers, and [np.diff] on the 64-bit
    array, which wraps. *)
Definition diffs (idx : list Timestamp) : list Timedelta :=
  zip_with Z.sub (tail idx) idx.

Definition np_diff (arr : list Z) : list Z := wrap64 <$> diffs arr.

(** *** Frequency inference *)

(** Frequency aliases, as [inferred_freq] spells them: a count and a base,
    "D", "3H", "2W-WED", "MS", "QS-OCT", "B", "WOM-1MON".  The position of a
    monthly, quarterly or annual alias is the day of the month its
    timestamps fall on: the first day, the first business day, the last day
    or the last business day. *)
Inductive position := pos_cs | pos_bs | pos_ce | pos_be.

Inductive base_alias :=
  | alias_N | alias_U | alias_L | alias_S | alias_T | alias_H | alias_D
  | alias_W (anchor : Z)
  | alias_B
  | alias_BH
  | alias_M (p : position)               (* MS, BMS, M, BM *)
  | alias_Q (p : position) (anchor : Z)  (* QS-, BQS-, Q-, BQ- and a month *)
  | alias_A (p : position) (anchor : Z)  (* AS-, BAS-, A-, BA- and a month *)
  | alias_WOM (week : Z) (anchor : Z).

Record freq_str := Alias { count : Z; base : base_alias }.

(** [unique] keeps the first occurrence of each element; [unique_deltas] is
    the sorted array of the distinct neighbour differences. *)
Definition unique (arr : list Z) : list Z := remove_dups arr.

Definition unique_deltas (arr : list Z) : list Z := merge_sort Z.le (unique (np_diff arr)).

Definition _is_multiple (us mult : Z) : bool := us `mod` mult =? 0.

(** [month_position_check]: where in its month every timestamp lies. *)
Definition month_position_check (idx : list Timestamp) : option position :=
  let rows := (λ t, (date_of t, weekday t)) <$> idx in
  let calendar_start := forallb (λ r, day r.1 =? 1) rows in
  let business_start :=
    forallb (λ r, (day r.1 =? 1) || ((day r.1 <=? 3) && (r.2 =? 0))) rows in
  let calendar_end :=
    forallb (λ r, day r.1 =? get_days_in_month (year r.1) (month r.1)) rows in
  let business_end :=
    forallb (λ r, let daysinmonth := get_days_in_month (year r.1) (month r.1) in
                  (day r.1 =? daysinmonth) || ((daysinmonth - day r.1 <? 3) && (r.2 =? 4)))
            rows in
  if calendar_end then Some pos_ce
  else if business_end then Some pos_be
  else if calendar_start then Some pos_cs
  else if business_start then Some pos_bs
  else None.

(** The state of pandas' [_FrequencyInferer] is the index; its cached
    properties are functions of it. *)
Definition deltas (idx : list Timestamp) : list Z := unique_deltas idx.

Definition is_unique (idx : list Timestamp) : bool :=
  bool_decide (length (deltas idx) = 1%nat).

Definition rep_stamp (idx : list Timestamp) : Timestamp := default 0 (head idx).

Definition mdiffs (idx : list Timestamp) : list Z :=
  unique_deltas ((λ t, year (date_of t) * 12 + month (date_of t)) <$> idx).

Definition ydiffs (idx : list Timestamp) : list Z :=
  unique_deltas ((λ t, year (date_of t)) <$> idx).

Definition _get_annual_rule (idx : list Timestamp) : option position :=
  if bool_decide (1 < length (ydiffs idx))%nat then None
  else if bool_decide (1 < length (unique ((λ t, month (date_of t)) <$> idx)))%nat then None
  else month_position_check idx.

Definition _get_quarterly_rule (idx : list Timestamp) : option position :=
  if bool_decide (1 < length (mdiffs idx))%nat then None
  else if negb (default 0 (head (mdiffs idx)) `mod` 3 =? 0) then None
  else month_position_check idx.

Definition _get_monthly_rule (idx : list Timestamp) : option position :=
  if bool_decide (1 < length (mdiffs idx))%nat then None
  else month_position_check idx.

Definition _get_daily_rule (idx : list Timestamp) : freq_str :=
  let days := default 0 (head (deltas idx)) `div` ONE_DAY in
  if days `mod` 7 =? 0 then Alias (days `div` 7) (alias_W (weekday (rep_stamp idx)))
  else Alias days alias_D.

Fixpoint cumsum (acc : Z) (arr : list Z) : list Z :=
  match arr with
  | [] => []
  | x :: arr => (acc + x) :: cumsum (acc + x) arr
  end.

Definition _is_business_daily (idx : list Timestamp) : bool :=
  if decide (deltas idx = [ONE_DAY; 3 * ONE_DAY]) then
    let first_weekday := weekday (rep_stamp idx) in
    let shifts := (λ d, d `div` ONE_DAY) <$> np_diff idx in
    let weekdays := (λ c, (first_weekday + c) `mod` 7) <$> cumsum 0 shifts in
    forallb (λ ws, ((ws.1 =? 0) && (ws.2 =? 3))
                   || ((0 <? ws.1) && (ws.1 <=? 4) && (ws.2 =? 1)))
            (zip weekdays shifts)
  else false.

Definition _get_wom_rule (idx : list Timestamp) : option freq_str :=
  let weekdays := unique (weekday <$> idx) in
  if bool_decide (1 < length weekdays)%nat then None
  else
    let week_of_months :=
      filter (λ w, w < 4) (unique ((λ t, (day (date_of t) - 1) `div` 7) <$> idx)) in
    match week_of_months, weekdays with
    | [w], [wd] => Some (Alias 1 (alias_WOM (w + 1) wd))
    | _, _ => None
    end.

(** The month a quarterly alias is anchored on. *)
Definition quarter_anchor (m : Z) : Z :=
  match m `mod` 3 with 0 => 12 | 2 => 11 | _ => 10 end.

(** The rules for a smallest step of whole days, in pandas' order: annual,
    quarterly and monthly first, then the single step (weeks or days), then
    business days, then the week of the month. *)
Definition _infer_daily_rule (idx : list Timestamp) : option freq_str :=
  match _get_annual_rule idx with
  | Some p =>
      Some (Alias (default 0 (head (ydiffs idx)))
                  (alias_A p (month (date_of (rep_stamp idx)))))
  | None =>
  match _get_quarterly_rule idx with
  | Some p =>
      Some (Alias (default 0 (head (mdiffs idx)) `div` 3)
                  (alias_Q p (quarter_anchor (month (date_of (rep_stamp idx))))))
  | None =>
  match _get_monthly_rule idx with
  | Some p => Some (Alias (default 0 (head (mdiffs idx))) (alias_M p))
  | None =>
      if is_unique idx then Some (_get_daily_rule idx)
      else if _is_business_daily idx then Some (Alias 1 alias_B)
      else _get_wom_rule idx
  end end end.

Definition is_monotonic (idx : list Timestamp) : bool :=
  bool_decide (Sorted Z.le idx) || bool_decide (Sorted Z.ge idx).

Definition get_freq (idx : list Timestamp) : option freq_str :=
  if negb (is_monotonic idx) || negb (bool_decide (NoDup idx)) then None
  else
    let delta := default 0 (head (deltas idx)) in
    if negb (delta =? 0) && _is_multiple delta ONE_DAY then _infer_daily_rule idx
    else if bool_decide (deltas idx ∈ [[ONE_HOUR; 17 * ONE_HOUR];
                                       [ONE_HOUR; 65 * ONE_HOUR];
                                       [ONE_HOUR; 17 * ONE_HOUR; 65 * ONE_HOUR]])
    then Some (Alias 1 alias_BH)
    else if negb (is_unique idx) then None
    else if _is_multiple delta ONE_HOUR then Some (Alias (delta `div` ONE_HOUR) alias_H)
    else if _is_multiple delta ONE_MINUTE then Some (Alias (delta `div` ONE_MINUTE) alias_T)
    else if _is_multiple delta ONE_SECOND then Some (Alias (delta `div` ONE_SECOND) alias_S)
    else if _is_multiple delta ONE_MILLI then Some (Alias (delta `div` ONE_MILLI) alias_L)
    else if _is_multiple delta ONE_MICRO then Some (Alias (delta `div` ONE_MICRO) alias_U)
    else Some (Alias delta alias_N).

(** [DatetimeIndex.inferred_freq]: pandas' [infer_freq] on the index, and
    None where that refuses an index of fewer than three timestamps. *)
Definition inferred_freq (idx : list Timestamp) : option freq_str :=
  if bool_decide (length idx < 3)%nat then None else get_freq idx.

(** [to_offset]: the tick offsets (Day, Hour, ..., Nano) carry a fixed
    duration; the offsets of the other aliases do not. *)
Inductive offset :=
  | Tick (nanos : Z)
  | Week (n : Z) (anchor : Z)
  | BusinessDay (n : Z)
  | BusinessHour (n : Z)
  | MonthOffset (n : Z) (p : position)
  | QuarterOffset (n : Z) (p : position) (anchor : Z)
  | YearOffset (n : Z) (p : position) (anchor : Z)
  | WeekOfMonth (n : Z) (week : Z) (anchor : Z).

Definition to_offset (f : freq_str) : offset :=
  match base f with
  | alias_N => Tick (count f)
  | alias_U => Tick (count f * ONE_MICRO)
  | alias_L => Tick (count f * ONE_MILLI)
  | alias_S => Tick (count f * ONE_SECOND)
  | alias_T => Tick (count f * ONE_MINUTE)
  | alias_H => Tick (count f * ONE_HOUR)
  | alias_D => Tick (count f * ONE_DAY)
  | alias_W a => Week (count f) a
  | alias_B => BusinessDay (count f)
  | alias_BH => BusinessHour (count f)
  | alias_M p => MonthOffset (count f) p
  | alias_Q p a => QuarterOffset (count f) p a
  | alias_A p a => YearOffset (count f) p a
  | alias_WOM w a => WeekOfMonth (count f) w a
  end.

(** [pd.to_timedelta] of an offset: the duration of a tick; any other
    offset is refused with ValueError. *)
Definition to_timedelta (o : offset) : result Timedelta :=
  match o with
  | Tick n => Ok n
  | _ => Err ValueError
  end.

(** The attributes of a Series the class reads.  Any other name is an
    AttributeError (a DatetimeIndex holds no identifier, so the name is not
    looked up among the labels either). *)
Inductive attribute :=
  | attr_index (idx : list Timestamp)
  | attr_values (vs : list float).

Definition getattr (s : Series) (name : string) : result attribute :=
  if String.eqb name "index" then Ok (attr_index (index s))
  else if String.eqb name "values" then Ok (attr_values (values s))
  else Err AttributeError.

(** [idx >= t] and [idx <= t]: the boolean arrays a mask is made of. *)
Definition index_ge (idx : list Timestamp) (t : Timestamp) : list bool :=
  (λ x, t <=? x) <$> idx.
Definition index_le (idx : list Timestamp) (t : Timestamp) : list bool :=
  (λ x, x <=? t) <$> idx.

(** [s[mask]]: the rows at which the mask is True. *)
Definition getitem_mask (s : Series) (mask : list bool) : Series :=
  (filter (λ pb, pb.2 = true) (zip s mask)).*1.

(** The value at a label, NaN when the label is absent. *)
Definition value_at (s : Series) (t : Timestamp) : float :=
  match list_find (λ p, p.1 = t) s with
  | Some (_, p) => p.2
  | None => nan
  end.

(** [s1 op s2] on two Series: positional when the two indexes are equal;
    otherwise pandas aligns the operands on the sorted union of the labels
    and fills the gaps with NaN (modelled for indexes without repeated
    labels). *)
Definition binop (op : float → float → float) (s1 s2 : Series) : Series :=
  if decide (index s1 = index s2) then zip_with (λ p q, (p.1, op p.2 q.2)) s1 s2
  else (λ t, (t, op (value_at s1 t) (value_at s2 t)))
         <$> merge_sort Z.le (remove_dups (index s1 ++ index s2)).

(** *** DataFrames *)

(** Row labels of a DataFrame: the default RangeIndex gives integers. *)
Inductive label :=
  | label_int (i : Z)
  | label_time (t : Timestamp)
  | label_str (s : string).

#[global] Instance label_eq_dec : EqDecision label.
Proof. solve_decision. Defined.

(** What a time column holds before parsing. *)
Inductive raw_time :=
  | raw_stamp (t : Timestamp)
  | raw_text (s : string).

(** A DataFrame, its columns by dtype: columns of raw times and float64
    columns.  [df[col]] is a KeyError when there is no such column. *)
Record DataFrame := {
  df_index : list label;
  df_times : gmap string (list raw_time);
  df_floats : gmap string (list float)
}.

Definition getitem_times (df : DataFrame) (col : string) : result (list raw_time) :=
  match df_times df !! col with Some c => Ok c | None => Err KeyError end.
Definition getitem_floats (df : DataFrame) (col : string) : result (list float) :=
  match df_floats df !! col with Some c => Ok c | None => Err KeyError end.

(** [pd.to_datetime(col, errors='raise')]: a timestamp passes unchanged,
    a text goes through the parser, which is outside the class; a text
    that does not parse raises. *)
Definition to_datetime (parse : string → option Timestamp)
    (col : list raw_time) : result (list Timestamp) :=
  mapM (M := result) (λ r,
    match r with
    | raw_stamp t => Ok t
    | raw_text s => match parse s with Some t => Ok t | None => Err ValueError end
    end) col.

(** [pd.Series(col, index=times)] for [col] a column of the DataFrame, that
    is a Series that carries the row labels already: pandas reindexes it.
    The result has the labels [times], and at each of them the value the
    column has at that label, NaN when the row labels have no such label.
    Only when the row labels are the new labels is the column taken as it
    is; reindexing from repeated row labels is refused. *)
Definition reindex (idx : list label) (col : list float) (target : list label)
    : result (list float) :=
  if decide (idx = target) then Ok col
  else if bool_decide (NoDup idx) || bool_decide (target = []) then
    Ok ((λ l, match list_find (λ p, p.1 = l) (zip idx col) with
              | Some (_, p) => p.2
              | None => nan
              end) <$> target)
  else Err ValueError.

Definition Series_of_column (df : DataFrame) (col : list float)
    (times : list Timestamp) : result Series :=
  vs ← reindex (df_index df) col (label_time <$> times);
  Series_new vs times.

End Pd.

(** ** The class *)

Module TimeSeries.
Import Pd.

Record t := {
  _series : Series;
  _freq : freq_str;
  _confidence_lo : option Series;
  _confidence_hi : option Series
}.

(** The check of lines 31-34 and 35-38: sort the bound, then
    [assert bound.index == self._series.index]. *)
Definition check_confidence (a : assertion) (main : Series)
    (confidence : option Series) : result (option Series) :=
  match confidence with
  | Some c =>
      let c' := sort_index c in
      cmp ← index_eq (index c') (index main);
      b ← truth cmp;
      py_assert a b;;
      Ok (Some c')
  | None => Ok None
  end.

(** [TimeSeries(series, confidence_lo, confidence_hi)].  The assertion of
    line 20 holds by typing: a [Series] of the model has a DatetimeIndex. *)
Definition __init__ (series : Series) (confidence_lo confidence_hi : option Series)
    : result t :=
  py_assert assert_nonempty (bool_decide (1 ≤ length series)%nat);;
  let series' := sort_index series in
  match inferred_freq (index series') with
  | None => Err (AssertionError assert_freq)
  | Some freq =>
      lo ← check_confidence assert_conf_lo series' confidence_lo;
      hi ← check_confidence assert_conf_hi series' confidence_hi;
      Ok {| _series := series'; _freq := freq;
            _confidence_lo := lo; _confidence_hi := hi |}
  end.

(** The instances the program can hold are the ones the constructor made. *)
Definition constructed (self : t) : Prop :=
  ∃ series lo hi, __init__ series lo hi = Ok self.

(** *** Accessors (their values; the references they return are in [Store]) *)

Definition pd_series (self : t) : Series := _series self.
Definition conf_lo_pd_series (self : t) : option Series := _confidence_lo self.
Definition conf_hi_pd_series (self : t) : option Series := _confidence_hi self.

Definition start_time (self : t) : result Timestamp :=
  match index (_series self) with
  | t0 :: _ => Ok t0
  | [] => Err IndexError
  end.

Definition end_time (self : t) : result Timestamp :=
  match last (index (_series self)) with
  | Some tn => Ok tn
  | None => Err IndexError
  end.

Definition values (self : t) : list float := Pd.values (_series self).
Definition time_index (self : t) : list Timestamp := index (_series self).

Definition freq (self : t) : result Timedelta := to_timedelta (to_offset (_freq self)).
Definition freq_str (self : t) : Pd.freq_str := _freq self.

Definition duration (self : t) : result Timedelta :=
  tn ← end_time self;
  t0 ← start_time self;
  Timestamp_sub tn t0.

Definition __len__ (self : t) : nat := length (_series self).

(** *** Slicing and splitting *)

(** The inner function of [slice].  Line 93 reads the attribute [index],
    line 94 the attribute [indey]. *)
Definition _slice_not_none (start_ts end_ts : Timestamp) (s : option Series)
    : result (option Series) :=
  match s with
  | Some s =>
      a ← getattr s "index";
      match a with
      | attr_index idx =>
          let s_a := getitem_mask s (index_ge idx start_ts) in
          a' ← getattr s_a "indey";
          match a' with
          | attr_index idx' => Ok (Some (getitem_mask s_a (index_le idx' end_ts)))
          | attr_values _ => Err TypeError
          end
      | attr_values _ => Err TypeError
      end
  | None => Ok None
  end.

Definition slice (self : t) (start_ts end_ts : Timestamp) : result t :=
  py_assert assert_slice_order (start_ts <? end_ts);;
  t0 ← start_time self;
  py_assert assert_slice_end (t0 <=? end_ts);;
  tn ← end_time self;
  py_assert assert_slice_start (start_ts <=? tn);;
  series ← _slice_not_none start_ts end_ts (Some (_series self));
  lo ← _slice_not_none start_ts end_ts (_confidence_lo self);
  hi ← _slice_not_none start_ts end_ts (_confidence_hi self);
  match series with
  | Some s => __init__ s lo hi
  | None => Err TypeError
  end.

Definition split (self : t) (ts : Timestamp) : result (t * t) :=
  py_assert assert_split_member (bool_decide (ts ∈ index (_series self)));;
  step ← freq self;
  start_second_series ← Timestamp_add ts step;
  t0 ← start_time self;
  first ← slice self t0 ts;
  tn ← end_time self;
  second ← slice self start_second_series tn;
  Ok (first, second).

Definition slice_duration (self : t) (start_ts : Timestamp) (duration : Timedelta)
    : result t :=
  end_ts ← Timestamp_add start_ts duration;
  slice self start_ts end_ts.

(** *** Factories *)

Definition optional_series (data : option (list float)) (times : list Timestamp)
    : result (option Series) :=
  match data with
  | Some d => s ← Series_new d times; Ok (Some s)
  | None => Ok None
  end.

Definition from_times_and_values (times : list Timestamp) (values : list float)
    (confidence_lo confidence_hi : option (list float)) : result t :=
  series ← Series_new values times;
  series_lo ← optional_series confidence_lo times;
  series_hi ← optional_series confidence_hi times;
  __init__ series series_lo series_hi.

(** The three Series [from_dataframe] builds (lines 123-127), that is the
    arguments it hands to the constructor.  The value column goes through
    [.values], an array; a bound column is passed as the column itself. *)
Definition optional_column (df : DataFrame) (col : option string)
    (times : list Timestamp) : result (option Series) :=
  match col with
  | Some c => data ← getitem_floats df c; s ← Series_of_column df data times; Ok (Some s)
  | None => Ok None
  end.

Definition from_dataframe_series (parse : string → option Timestamp)
    (df : DataFrame) (time_col value_col : string)
    (conf_lo_col conf_hi_col : option string)
    : result (Series * option Series * option Series) :=
  raw ← getitem_times df time_col;
  times ← to_datetime parse raw;
  data ← getitem_floats df value_col;
  series ← Series_new data times;
  conf_lo ← optional_column df conf_lo_col times;
  conf_hi ← optional_column df conf_hi_col times;
  Ok (series, conf_lo, conf_hi).

Definition from_dataframe (parse : string → option Timestamp)
    (df : DataFrame) (time_col value_col : string)
    (conf_lo_col conf_hi_col : option string) : result t :=
  '(series, conf_lo, conf_hi) ←
    from_dataframe_series parse df time_col value_col conf_lo_col conf_hi_col;
  __init__ series conf_lo conf_hi.

(** *** Combination *)

Definition has_same_time_as (self other : t) : result (list bool) :=
  index_eq (time_index other) (time_index self).

Definition _combine_or_none (series_a series_b : option Series)
    (combine_fn : Series → Series → Series) : option Series :=
  match series_a, series_b with
  | Some a, Some b => Some (combine_fn a b)
  | _, _ => None
  end.

Definition _combine_from_pd_ops (self other : t)
    (combine_fn : Series → Series → Series) : result t :=
  cmp ← has_same_time_as self other;
  b ← truth cmp;
  py_assert assert_same_time b;;
  let series := combine_fn (_series self) (pd_series other) in
  let conf_lo := _combine_or_none (_confidence_lo self) (conf_lo_pd_series other) combine_fn in
  let conf_hi := _combine_or_none (_confidence_hi self) (conf_hi_pd_series other) combine_fn in
  __init__ series conf_lo conf_hi.

Definition __add__ (self other : t) : result t :=
  _combine_from_pd_ops self other (binop PrimFloat.add).
Definition __sub__ (self other : t) : result t :=
  _combine_from_pd_ops self other (binop PrimFloat.sub).
Definition __mul__ (self other : t) : result t :=
  _combine_from_pd_ops self other (binop PrimFloat.mul).
Definition __truediv__ (self other : t) : result t :=
  _combine_from_pd_ops self other (binop PrimFloat.div).

End TimeSeries.

Import Pd.


(** ** The accessors over a store of buffers *)

(** A numpy array is a reference to a buffer, and so is what a Series keeps
    its values in.  Here the buffers live in a store, an instance holds
    addresses, and an accessor returns either an address the instance holds
    or the address of a fresh copy.  The Index of a Series cannot be written
    through its own interface and is kept by value. *)
Module Store.
Import Pd.

Abbreviation loc := nat.
Abbreviation heap := (gmap nat (list float)).

(** A Series object. *)
Record series_obj := { s_index : list Timestamp; s_data : loc }.

(** A TimeSeries object: the attributes set by the constructor. *)
Record instance := {
  _series : series_obj;
  _freq : freq_str;
  _confidence_lo : option series_obj;
  _confidence_hi : option series_obj
}.

(** Computations that read and write the store and may raise. *)
Definition M (A : Type) : Type := heap → result (A * heap).

#[global] Instance M_ret : MRet M := λ A a h, Ok (a, h).
#[global] Instance M_bind : MBind M := λ A B f m h,
  match m h with Ok (a, h') => f a h' | Err e => Err e end.

Definition alloc (vs : list float) : M loc :=
  λ h, let l := fresh (dom h) in Ok (l, <[l:=vs]> h).

(** Reading a buffer.  (A reference always points to a buffer in Python; the
    error case is there for stores that were not built by [alloc].) *)
Definition read (l : loc) : M (list float) :=
  λ h, match h !! l with Some vs => Ok (vs, h) | None => Err TypeError end.

(** [arr[i] = v], by whoever holds the array; out of range numpy raises
    IndexError. *)
Definition ndarray_setitem (l : loc) (i : nat) (v : float) : M unit :=
  λ h, match h !! l with
       | Some vs =>
           if bool_decide (i < length vs)%nat then Ok ((), <[l:=<[i:=v]> vs]> h)
           else Err IndexError
       | None => Err TypeError
       end.

(** [s.copy()]: a new Series object over a copy of the buffer. *)
Definition Series_copy (s : series_obj) : M series_obj :=
  vs ← read (s_data s);
  l ← alloc vs;
  mret {| s_index := s_index s; s_data := l |}.

(** [s.values]: the array of the Series, that is its own buffer. *)
Definition Series_values (s : series_obj) : M loc := mret (s_data s).

Definition Series_new (s : Series) : M series_obj :=
  l ← alloc (Pd.values s);
  mret {| s_index := Pd.index s; s_data := l |}.

Definition optional_new (s : option Series) : M (option series_obj) :=
  match s with
  | Some s => o ← Series_new s; mret (Some o)
  | None => mret None
  end.

(** The constructor: the checks and the sorting are those of
    [TimeSeries.__init__]; [sort_index] makes new Series objects, which the
    instance keeps. *)
Definition __init__ (series : Series) (confidence_lo confidence_hi : option Series)
    : M instance :=
  λ h, match TimeSeries.__init__ series confidence_lo confidence_hi with
       | Ok ts =>
           (s ← Series_new (TimeSeries._series ts);
            lo ← optional_new (TimeSeries._confidence_lo ts);
            hi ← optional_new (TimeSeries._confidence_hi ts);
            mret {| _series := s; _freq := TimeSeries._freq ts;
                    _confidence_lo := lo; _confidence_hi := hi |}) h
       | Err e => Err e
       end.

(** Lines 40-47 and 55-59. *)
Definition pd_series (self : instance) : M series_obj := Series_copy (_series self).

Definition conf_lo_pd_series (self : instance) : M (option series_obj) :=
  match _confidence_lo self with
  | Some s => c ← Series_copy s; mret (Some c)
  | None => mret None
  end.

Definition conf_hi_pd_series (self : instance) : M (option series_obj) :=
  match _confidence_hi self with
  | Some s => c ← Series_copy s; mret (Some c)
  | None => mret None
  end.

Definition values (self : instance) : M loc := Series_values (_series self).

Definition time_index (self : instance) : M (list Timestamp) :=
  mret (s_index (_series self)).

(** What an instance stores, read off the store. *)
Definition stored (h : heap) (s : series_obj) : option Series :=
  vs ← h !! s_data s; Some (zip (s_index s) vs).

Definition stored_values (h : heap) (self : instance) : option (list float) :=
  h !! s_data (_series self).

End Store.

(** ** The tabular factory as the specification words it *)

(** The factory in the words of the specification (section 4.1), to compare
    [TimeSeries.from_dataframe] with: parse the time column, zip the parsed
    timestamps with the selected value column and with each selected bound
    column, position by position, and delegate to the constructor.
    [from_dataframe_positional_series] is what is handed to the constructor. *)
Definition optional_positional (df : DataFrame) (col : option string)
    (times : list Timestamp) : result (option Series) :=
  match col with
  | Some c => data ← getitem_floats df c; s ← Series_new data times; Ok (Some s)
  | None => Ok None
  end.

Definition from_dataframe_positional_series (parse : string → option Timestamp)
    (df : DataFrame) (time_col value_col : string)
    (conf_lo_col conf_hi_col : option string)
    : result (Series * option Series * option Series) :=
  raw ← getitem_times df time_col;
  times ← to_datetime parse raw;
  data ← getitem_floats df value_col;
  series ← Series_new data times;
  conf_lo ← optional_positional df conf_lo_col times;
  conf_hi ← optional_positional df conf_hi_col times;
  Ok (series, conf_lo, conf_hi).

Definition from_dataframe_positional (parse : string → option Timestamp)
    (df : DataFrame) (time_col value_col : string)
    (conf_lo_col conf_hi_col : option string) : result TimeSeries.t :=
  '(series, conf_lo, conf_hi) ←
    from_dataframe_positional_series parse df time_col value_col conf_lo_col conf_hi_col;
  TimeSeries.__init__ series conf_lo conf_hi.

(** ** Uniform spacing *)

Definition uniform (d : Timedelta) (idx : list Timestamp) : Prop :=
  Forall (eq d) (diffs idx).

(** The timestamps a DatetimeIndex can hold. *)
Definition representable (idx : list Timestamp) : Prop :=
  Forall (λ t, in_bounds t = true) idx.

(** The aliases with a fixed duration: N, U, L, S, T, H and D. *)
Definition is_tick (b : base_alias) : bool :=
  match b with
  | alias_N | alias_U | alias_L | alias_S | alias_T | alias_H | alias_D => true
  | _ => false
  end.

(** ** Example data *)

(** Midnight of 2020-01-[d] (2020-01-01 is 18262 days after the epoch). *)
Definition jan (d : Z) : Timestamp := (18261 + d) * ONE_DAY.

Definition daily5 : Series :=
  [(jan 1, 1%float); (jan 2, 2%float); (jan 3, 3%float); (jan 4, 4%float); (jan 5, 5%float)].

Definition daily5_ts : TimeSeries.t :=
  {| TimeSeries._series := daily5; TimeSeries._freq := Alias 1 alias_D;
     TimeSeries._confidence_lo := None; TimeSeries._confidence_hi := None |}.

Definition weekly3 : Series :=
  [(jan 1, 1%float); (jan 8, 2%float); (jan 15, 3%float)].

Definition weekly3_ts : TimeSeries.t :=
  {| TimeSeries._series := weekly3; TimeSeries._freq := Alias 1 (alias_W 2);
     TimeSeries._confidence_lo := None; TimeSeries._confidence_hi := None |}.

(** Thursday 2020-01-02, Friday 01-03 and Monday 01-06: gaps of one and of
    three days. *)
Definition business3 : Series :=
  [(jan 2, 1%float); (jan 3, 2%float); (jan 6, 3%float)].

Definition business3_ts : TimeSeries.t :=
  {| TimeSeries._series := business3; TimeSeries._freq := Alias 1 alias_B;
     TimeSeries._confidence_lo := None; TimeSeries._confidence_hi := None |}.

(** The first days of July, August and September 2020 (2020-07-01 is 182
    days after 2020-01-01): two gaps of 31 days. *)
Definition month_starts3 : Series :=
  [(jan 183, 1%float); (jan 214, 2%float); (jan 245, 3%float)].

Definition month_starts3_ts : TimeSeries.t :=
  {| TimeSeries._series := month_starts3; TimeSeries._freq := Alias 1 (alias_M pos_cs);
     TimeSeries._confidence_lo := None; TimeSeries._confidence_hi := None |}.

(** A table of three rows under the default row labels 0, 1, 2. *)
Definition table3 : DataFrame :=
  {| df_index := [label_int 0; label_int 1; label_int 2];
     df_times := {[ "time" := [raw_stamp (jan 1); raw_stamp (jan 2); raw_stamp (jan 3)] ]};
     df_floats := <[ "lo" := [0.5%float; 1.5%float; 2.5%float] ]>
                    {[ "value" := [1%float; 2%float; 3%float] ]} |}.

(** A parser that knows no text; the table holds timestamps already. *)
Definition no_text : string → option Timestamp := λ _, None.

(** * Properties *)

(** ** The error monad *)

(** One step of a computation: run the binds and assertions whose outcome is
    known. *)
Ltac res_simpl := cbn [py_assert mbind result_bind mret result_ret].

Lemma bind_Ok {A B} (m : result A) (k : A → result B) a :
  m = Ok a → (m ≫= k) = k a.
Proof. by intros ->. Qed.

Lemma bind_Err {A B} (m : result A) (k : A → result B) e :
  m = Err e → (m ≫= k) = Err e.
Proof. by intros ->. Qed.

Lemma bind_Ok_inv {A B} (m : result A) (k : A → result B) b :
  (m ≫= k) = Ok b → ∃ a, m = Ok a ∧ k a = Ok b.
Proof. destruct m as [a|e]; [by exists a | done]. Qed.

Lemma py_assert_Ok_inv a c u : py_assert a c = Ok u → c = true.
Proof. by destruct c. Qed.

Lemma not_is_Ok_Err {A} (e : exn) : ¬ is_Ok (@Err A e).
Proof. by intros [a ?]. Qed.

(** ** Arrays and their truth value *)

(** An array of two or more booleans has no truth value. *)
Lemma truth_ambiguous (arr : list bool) :
  (2 ≤ length arr)%nat → truth arr = Err ValueError.
Proof. destruct arr as [|? [|? ?]]; simpl; [lia | lia | done]. Qed.

(** Comparing an index of two or more timestamps with any index and taking
    the truth value of the outcome raises ValueError, whether or not the two
    indexes are equal. *)
Lemma index_eq_truth (a b : list Timestamp) :
  (2 ≤ length b)%nat → (index_eq a b ≫= truth) = Err ValueError.
Proof.
  intros Hb. unfold index_eq. case_bool_decide as Hlen; [|done].
  change (truth (zip_with Z.eqb a b) = Err ValueError).
  apply truth_ambiguous. rewrite length_zip_with. lia.
Qed.

(** ** Uniform spacing *)

Lemma diffs_cons (a b : Timestamp) (l : list Timestamp) :
  diffs (a :: b :: l) = (b - a) :: diffs (b :: l).
Proof. done. Qed.

(** With a single step [d], the timestamp at position [i] is [i] steps after
    the first one. *)
Lemma uniform_lookup (d : Timedelta) (idx : list Timestamp) :
  uniform d idx →
  ∀ (i : nat) t0 x, head idx = Some t0 → idx !! i = Some x → x = t0 + Z.of_nat i * d.
Proof.
  unfold uniform. induction idx as [|a [|b l] IH]; intros Hu i t0 x Hhd Hi.
  - done.
  - destruct i as [|i]; simplify_eq/=; lia.
  - rewrite diffs_cons in Hu. apply Forall_cons in Hu as [Hd Hu].
    destruct i as [|i]; simplify_eq/=; [lia|].
    rewrite (IH Hu i b x eq_refl Hi). lia.
Qed.

(** With a positive step the index ascends and repeats no timestamp. *)
Lemma uniform_progression (d : Timedelta) (idx : list Timestamp) (t0 : Timestamp) :
  uniform d idx → head idx = Some t0 →
  idx = (λ i : nat, t0 + Z.of_nat i * d) <$> seq 0 (length idx).
Proof.
  intros Hu Hhd. apply list_eq. intros i. rewrite list_lookup_fmap.
  destruct (idx !! i) as [x|] eqn:Hi.
  - rewrite lookup_seq_lt by (by eapply lookup_lt_Some).
    simpl. f_equal. by apply (uniform_lookup d idx Hu i).
  - apply lookup_ge_None in Hi. by rewrite lookup_seq_ge.
Qed.

Lemma progression_NoDup (d : Timedelta) (t0 : Timestamp) (n : nat) :
  0 < d → NoDup ((λ i : nat, t0 + Z.of_nat i * d) <$> seq 0 n).
Proof.
  intros Hd. apply NoDup_fmap_2_strong; [|apply NoDup_seq].
  intros i j _ _ Heq. nia.
Qed.

Lemma uniform_NoDup (d : Timedelta) (idx : list Timestamp) :
  0 < d → uniform d idx → NoDup idx.
Proof.
  intros Hd Hu. destruct idx as [|t0 idx'] eqn:Heq; [constructor|]. rewrite <- Heq in *.
  rewrite (uniform_progression d idx t0 Hu) by (by subst).
  by apply progression_NoDup.
Qed.

Lemma uniform_Sorted (d : Timedelta) (idx : list Timestamp) :
  0 < d → uniform d idx → Sorted Z.le idx.
Proof.
  unfold uniform. intros Hd.
  induction idx as [|a [|b l] IH]; intros Hu; [constructor | by repeat constructor |].
  rewrite diffs_cons in Hu. apply Forall_cons in Hu as [Hab Hu].
  constructor; [by apply IH|]. constructor. lia.
Qed.

(** ** Ascending indexes *)

Lemma Sorted_le_head (idx : list Timestamp) (t0 x : Timestamp) :
  Sorted Z.le idx → head idx = Some t0 → x ∈ idx → t0 ≤ x.
Proof.
  intros Hs%(Sorted_StronglySorted _) Hhd Hx.
  destruct Hs as [|a l Hs Hall]; simplify_eq/=.
  apply elem_of_cons in Hx as [->|Hx]; [lia|].
  by eapply Forall_forall in Hall.
Qed.

Lemma Sorted_le_last (idx : list Timestamp) (tn x : Timestamp) :
  Sorted Z.le idx → last idx = Some tn → x ∈ idx → x ≤ tn.
Proof.
  intros Hs%(Sorted_StronglySorted _). revert x.
  induction Hs as [|a l Hs IH Hall]; intros x Hlast Hx; [done|].
  destruct l as [|b l].
  - apply list_elem_of_singleton in Hx. simplify_eq/=. lia.
  - change (last (b :: l) = Some tn) in Hlast.
    apply elem_of_cons in Hx as [->|Hx]; [|by apply IH].
    eapply Forall_forall in Hall; [exact Hall|]. by apply last_Some_elem_of.
Qed.

(** Neighbours of an ascending index without repeats, within the range of a
    timestamp: every gap is positive and fits in 64 bits unsigned. *)
Lemma Sorted_gaps (idx : list Timestamp) :
  Sorted Z.le idx → NoDup idx → representable idx →
  Forall (λ g, 0 < g ≤ 2 * I64_MAX) (diffs idx).
Proof.
  unfold representable, in_bounds, iNaT, I64_MAX.
  induction idx as [|a [|b l] IH]; intros Hs Hd Hr; [constructor | constructor |].
  rewrite diffs_cons. apply Sorted_inv in Hs as [Hs Hab].
  apply NoDup_cons in Hd as [Ha Hd]. apply Forall_cons in Hr as [Hra Hr].
  constructor; [|by apply IH].
  apply HdRel_inv in Hab. apply Forall_cons in Hr as [Hrb _].
  assert (a ≠ b) by (intros ->; apply Ha; by left).
  lia.
Qed.

Lemma representable_forallb (idx : list Timestamp) :
  forallb in_bounds idx = true → representable idx.
Proof.
  unfold representable. induction idx as [|t idx IH]; [constructor|].
  simpl. intros [? ?]%andb_true_iff. constructor; auto.
Qed.

(** ** Sorting by label *)

#[local] Instance label_le_transitive : Transitive label_le.
Proof. unfold label_le. intros x y z. lia. Qed.

#[local] Instance label_le_total : Total label_le.
Proof. unfold label_le. intros x y. lia. Qed.

Lemma sort_index_Sorted (s : Series) : Sorted label_le (sort_index s).
Proof. apply (Sorted_merge_sort label_le). Qed.

Lemma sort_index_Permutation (s : Series) : sort_index s ≡ₚ s.
Proof. apply merge_sort_Permutation. Qed.

Lemma index_sort_index_Sorted (s : Series) : Sorted Z.le (index (sort_index s)).
Proof. apply (Sorted_fmap _ label_le Z.le); [done | apply sort_index_Sorted]. Qed.

(** ** Frequency inference *)

(** What pandas asks of every index it names a frequency for: three or more
    timestamps, no repeated one. *)
Lemma inferred_freq_length (idx : list Timestamp) (f : freq_str) :
  inferred_freq idx = Some f → (3 ≤ length idx)%nat.
Proof. unfold inferred_freq. case_bool_decide; [done | lia]. Qed.

Lemma inferred_freq_NoDup (idx : list Timestamp) (f : freq_str) :
  inferred_freq idx = Some f → NoDup idx.
Proof.
  unfold inferred_freq, get_freq. case_bool_decide; [done|].
  destruct (is_monotonic idx); [|done]. by case_bool_decide.
Qed.

(** 64-bit differences. *)
Lemma wrap64_small (z : Z) : - 2 ^ 63 ≤ z < 2 ^ 63 → wrap64 z = z.
Proof.
  unfold wrap64. change (2 ^ 63) with 9223372036854775808.
  change (2 ^ 64) with 18446744073709551616. intros. Z.div_mod_to_equations. lia.
Qed.

Lemma unique_constant (x : Z) (l : list Z) :
  l ≠ [] → Forall (eq x) l → unique l = [x].
Proof.
  unfold unique. induction l as [|y l IH]; [done|]. intros _ [<- Hl]%Forall_cons.
  cbn [remove_dups]. destruct l as [|z l]; [done|].
  destruct (decide_rel _ x (z :: l)) as [_|Hn]; [by apply IH|].
  destruct Hn. apply Forall_cons in Hl as [<- _]. by left.
Qed.

(** An index with a single step has a single delta, and an index with a
    single delta has a single step up to the width of the integers. *)
Lemma deltas_uniform (d : Timedelta) (idx : list Timestamp) :
  (2 ≤ length idx)%nat → uniform d idx → deltas idx = [wrap64 d].
Proof.
  unfold uniform, deltas, unique_deltas, np_diff. intros Hlen Hu.
  rewrite (unique_constant (wrap64 d)); [done| |].
  - destruct idx as [|a [|b l]]; simpl in *; [lia | lia | done].
  - apply Forall_fmap. eapply Forall_impl; [exact Hu|]. by intros g <-.
Qed.

Lemma deltas_single (step : Z) (idx : list Timestamp) :
  deltas idx = [step] → Forall (λ g, wrap64 g = step) (diffs idx).
Proof.
  unfold deltas, unique_deltas, unique, np_diff. intros Hd.
  apply Forall_forall. intros g Hg.
  assert (wrap64 g ∈ merge_sort Z.le (remove_dups (wrap64 <$> diffs idx))) as Hin.
  { rewrite merge_sort_Permutation. apply elem_of_remove_dups.
    by apply list_elem_of_fmap_2. }
  rewrite Hd in Hin. by apply list_elem_of_singleton in Hin.
Qed.

Lemma deltas_single_uniform (step : Z) (idx : list Timestamp) :
  deltas idx = [step] → (3 ≤ length idx)%nat →
  Sorted Z.le idx → NoDup idx → representable idx →
  0 < step ∧ uniform step idx.
Proof.
  intros Hd%deltas_single Hlen Hs Hnd Hr.
  pose proof (Sorted_gaps idx Hs Hnd Hr) as Hgaps.
  assert (0 ≤ step) as Hstep.
  { destruct idx as [|t0 [|t1 [|t2 l]]]; simpl in Hlen; [lia..|].
    rewrite !diffs_cons in Hd, Hgaps.
    apply Forall_cons in Hd as [H1 [H2 _]%Forall_cons].
    apply Forall_cons in Hgaps as [G1 [G2 _]%Forall_cons].
    apply Forall_cons in Hr as [R0 [_ [R2 _]%Forall_cons]%Forall_cons].
    unfold in_bounds in R0, R2. revert H1 H2 G1 G2 R0 R2.
    unfold wrap64, I64_MAX, iNaT. change (2 ^ 63) with 9223372036854775808.
    change (2 ^ 64) with 18446744073709551616.
    intros. Z.div_mod_to_equations. lia. }
  assert (Forall (eq step) (diffs idx)) as Hu.
  { apply Forall_forall. intros g Hg.
    eapply Forall_forall in Hd; [|exact Hg]. eapply Forall_forall in Hgaps; [|exact Hg].
    revert Hd Hgaps Hstep. unfold wrap64, I64_MAX.
    change (2 ^ 63) with 9223372036854775808. change (2 ^ 64) with 18446744073709551616.
    intros. Z.div_mod_to_equations. lia. }
  split; [|done].
  destruct idx as [|t0 [|t1 l]]; simpl in Hlen; [lia..|].
  rewrite diffs_cons in Hu, Hgaps.
  apply Forall_cons in Hu as [-> _]. apply Forall_cons in Hgaps as [? _]. lia.
Qed.

(** An index of three or more timestamps a single positive step apart has
    an inferred frequency, whichever rule names it. *)
Lemma inferred_freq_uniform (idx : list Timestamp) (d : Timedelta) :
  (3 ≤ length idx)%nat → 0 < d → uniform d idx → is_Some (inferred_freq idx).
Proof.
  intros Hlen Hpos Hu. unfold inferred_freq, get_freq.
  rewrite bool_decide_eq_false_2 by lia.
  assert (is_monotonic idx = true) as ->.
  { unfold is_monotonic. rewrite bool_decide_eq_true_2; [done|]. by eapply uniform_Sorted. }
  rewrite (bool_decide_eq_true_2 (NoDup idx)) by (by eapply uniform_NoDup).
  pose proof (deltas_uniform d idx ltac:(lia) Hu) as Hd.
  assert (is_unique idx = true) as Huniq.
  { unfold is_unique. by rewrite Hd. }
  cbn [negb orb]. destruct (_ && _).
  - unfold _infer_daily_rule.
    destruct (_get_annual_rule idx); [done|].
    destruct (_get_quarterly_rule idx); [done|].
    destruct (_get_monthly_rule idx); [done|].
    by rewrite Huniq.
  - rewrite Huniq, Hd. rewrite bool_decide_eq_false_2; last first.
    { rewrite !elem_of_cons, elem_of_nil. intros [?|[?|[?|[]]]]; discriminate. }
    cbn [negb]. repeat destruct (_is_multiple _ _); done.
Qed.

(** The aliases with a duration come from the rule of the single delta:
    a frequency that [to_timedelta] accepts is that delta. *)
Lemma inferred_freq_tick (idx : list Timestamp) (f : freq_str) (step : Timedelta) :
  inferred_freq idx = Some f → to_timedelta (to_offset f) = Ok step →
  deltas idx = [step].
Proof.
  unfold inferred_freq, get_freq. case_bool_decide; [done|].
  destruct (negb _ || negb _); [done|]. cbv zeta.
  assert (is_unique idx = true → deltas idx = [default 0 (head (deltas idx))]) as Hsingle.
  { unfold is_unique. intros Hu%bool_decide_eq_true.
    by destruct (deltas idx) as [|x [|y l]]. }
  assert (∀ unit, unit ≠ 0 → _is_multiple (default 0 (head (deltas idx))) unit = true →
            default 0 (head (deltas idx)) `div` unit * unit = default 0 (head (deltas idx)))
    as Hmult.
  { unfold _is_multiple. intros unit Hunit Hm%Z.eqb_eq.
    pose proof (Z.div_mod (default 0 (head (deltas idx))) unit Hunit). lia. }
  destruct (negb _ && _is_multiple _ ONE_DAY) eqn:Hday.
  - apply andb_true_iff in Hday as [_ Hday]. unfold _infer_daily_rule.
    destruct (_get_annual_rule idx); [by intros [= <-]|].
    destruct (_get_quarterly_rule idx); [by intros [= <-]|].
    destruct (_get_monthly_rule idx); [by intros [= <-]|].
    destruct (is_unique idx) eqn:Hu.
    + unfold _get_daily_rule. destruct (_ =? 0); intros [= <-]; [done|].
      cbn [to_timedelta to_offset base count]. intros [= <-].
      rewrite Hmult by done. by apply Hsingle.
    + destruct (_is_business_daily idx); [by intros [= <-]|].
      unfold _get_wom_rule. case_bool_decide; [done|].
      destruct (filter _ _) as [|? [|? ?]]; [done| |done].
      destruct (unique _) as [|? [|? ?]]; [done| |done]. by intros [= <-].
  - clear Hday. case_bool_decide; [by intros [= <-]|].
    destruct (is_unique idx) eqn:Hu; [|done]. cbn [negb].
    specialize (Hsingle eq_refl).
    repeat match goal with
           | |- (if _is_multiple ?a ?b then _ else _) = _ → _ =>
               destruct (_is_multiple a b) eqn:?;
                 [intros [= <-]; cbn [to_timedelta to_offset base count]; intros [= <-];
                  rewrite Hmult by done; exact Hsingle|]
           end.
    intros [= <-]. cbn [to_timedelta to_offset base count]. by intros [= <-].
Qed.

(** The other aliases are refused by [to_timedelta]. *)
Lemma to_timedelta_tick (f : freq_str) :
  to_timedelta (to_offset f) =
  if is_tick (base f) then to_timedelta (to_offset f) else Err ValueError.
Proof. unfold to_offset. by destruct (base f). Qed.

Lemma to_timedelta_Ok (f : freq_str) (step : Timedelta) :
  to_timedelta (to_offset f) = Ok step → is_tick (base f) = true.
Proof. unfold to_offset. by destruct (base f). Qed.

Lemma to_timedelta_Err (f : freq_str) (e : exn) :
  to_timedelta (to_offset f) = Err e → is_tick (base f) = false ∧ e = ValueError.
Proof. unfold to_offset. destruct (base f); cbn; by intros [= <-]. Qed.

(** ** The constructor *)

Lemma length_sort_index (s : Series) : length (sort_index s) = length s.
Proof. unfold sort_index. by rewrite merge_sort_Permutation. Qed.

Lemma length_index (s : Series) : length (index s) = length s.
Proof. apply length_fmap. Qed.

(** Once the main index has two or more timestamps, the check of a supplied
    bound raises ValueError whatever the bound is: on indexes of different
    lengths the comparison itself raises, and on indexes of the same length
    its outcome is an array with no truth value. *)
Lemma check_confidence_Some (a : assertion) (main c : Series) :
  (2 ≤ length main)%nat → TimeSeries.check_confidence a main (Some c) = Err ValueError.
Proof.
  intros Hlen. unfold TimeSeries.check_confidence, index_eq.
  case_bool_decide as Heq; [|done].
  res_simpl. rewrite truth_ambiguous; [done|].
  rewrite length_zip_with, !length_index in *. lia.
Qed.

(** The constructor without bounds, in closed form. *)
Lemma init_no_bounds (series : Series) :
  TimeSeries.__init__ series None None =
  if bool_decide (1 ≤ length series)%nat then
    match inferred_freq (index (sort_index series)) with
    | Some f => Ok {| TimeSeries._series := sort_index series; TimeSeries._freq := f;
                      TimeSeries._confidence_lo := None;
                      TimeSeries._confidence_hi := None |}
    | None => Err (AssertionError assert_freq)
    end
  else Err (AssertionError assert_nonempty).
Proof.
  unfold TimeSeries.__init__. case_bool_decide; [|done].
  res_simpl. by destruct (inferred_freq _).
Qed.

(** What a successful construction tells: no bound was supplied, the stored
    series is the sorted input, and the stored alias is the inferred one. *)
Lemma init_Ok (series : Series) (lo hi : option Series) (self : TimeSeries.t) :
  TimeSeries.__init__ series lo hi = Ok self →
  lo = None ∧ hi = None ∧
  TimeSeries._series self = sort_index series ∧
  inferred_freq (index (sort_index series)) = Some (TimeSeries._freq self) ∧
  TimeSeries._confidence_lo self = None ∧ TimeSeries._confidence_hi self = None.
Proof.
  unfold TimeSeries.__init__. case_bool_decide; [|done].
  res_simpl.
  destruct (inferred_freq _) as [f|] eqn:Hf; [|done].
  pose proof (inferred_freq_length _ _ Hf) as Hlen. rewrite length_index in Hlen.
  destruct lo as [c|].
  { rewrite check_confidence_Some by lia. done. }
  destruct hi as [c|].
  { rewrite (check_confidence_Some assert_conf_hi) by lia. done. }
  cbn. by intros [= <-].
Qed.

(** Every instance holds three or more timestamps in ascending order, none
    repeated, the alias inferred from them, and no bound. *)
Lemma constructed_inv (self : TimeSeries.t) :
  TimeSeries.constructed self →
  (3 ≤ length (TimeSeries._series self))%nat ∧
  TimeSeries._confidence_lo self = None ∧ TimeSeries._confidence_hi self = None ∧
  Sorted Z.le (TimeSeries.time_index self) ∧ NoDup (TimeSeries.time_index self) ∧
  inferred_freq (TimeSeries.time_index self) = Some (TimeSeries._freq self).
Proof.
  intros (series & lo & hi & (_ & _ & Hs & Hf & Hlo & Hhi)%init_Ok).
  unfold TimeSeries.time_index. rewrite Hs.
  pose proof (inferred_freq_length _ _ Hf) as Hlen. rewrite length_index in Hlen.
  pose proof (inferred_freq_NoDup _ _ Hf).
  pose proof (index_sort_index_Sorted series). done.
Qed.

Lemma start_time_Ok (self : TimeSeries.t) t0 :
  TimeSeries.start_time self = Ok t0 → head (TimeSeries.time_index self) = Some t0.
Proof.
  unfold TimeSeries.start_time, TimeSeries.time_index.
  destruct (index _); [done | by intros [= ->]].
Qed.

Lemma end_time_Ok (self : TimeSeries.t) tn :
  TimeSeries.end_time self = Ok tn → last (TimeSeries.time_index self) = Some tn.
Proof.
  unfold TimeSeries.end_time, TimeSeries.time_index.
  destruct (last _); [by intros [= ->] | done].
Qed.

Lemma end_time_of_last (self : TimeSeries.t) tn :
  last (TimeSeries.time_index self) = Some tn → TimeSeries.end_time self = Ok tn.
Proof. unfold TimeSeries.end_time, TimeSeries.time_index. by intros ->. Qed.

(** The first timestamp of an instance is the earliest and the last one the
    latest, and the two differ. *)
Lemma constructed_order (self : TimeSeries.t) (t0 : Timestamp) :
  TimeSeries.constructed self → TimeSeries.start_time self = Ok t0 →
  ∃ tn, TimeSeries.end_time self = Ok tn ∧ t0 < tn ∧
    ∀ x, x ∈ TimeSeries.time_index self → t0 ≤ x ≤ tn ∧ (x ≠ t0 → t0 < x).
Proof.
  intros (Hlen & _ & _ & Hs & Hnd & _)%constructed_inv Hhd%start_time_Ok.
  rewrite <- length_index in Hlen. fold (TimeSeries.time_index self) in Hlen.
  destruct (last (TimeSeries.time_index self)) as [tn|] eqn:Hlast; last first.
  { apply last_None in Hlast. rewrite Hlast in Hlen. simpl in Hlen. lia. }
  exists tn. split; [by apply end_time_of_last|].
  assert (∀ x, x ∈ TimeSeries.time_index self → t0 ≤ x ≤ tn) as Hbetween.
  { intros x Hx. split; [by eapply Sorted_le_head | by eapply Sorted_le_last]. }
  assert (t0 ≠ tn) as Hne.
  { destruct (TimeSeries.time_index self) as [|a [|b l]]; simpl in Hlen; [lia..|].
    change (last (b :: l) = Some tn) in Hlast. simplify_eq/=.
    apply NoDup_cons in Hnd as [Hnotin _]. intros ->.
    by apply Hnotin, last_Some_elem_of. }
  split.
  - pose proof (Hbetween tn (last_Some_elem_of _ _ Hlast)). lia.
  - intros x Hx. pose proof (Hbetween x Hx). split; [done | lia].
Qed.

(** The frequency of an instance, when it has a duration, is the step of its
    index. *)
Lemma freq_Ok (self : TimeSeries.t) (step : Timedelta) :
  TimeSeries.constructed self → representable (TimeSeries.time_index self) →
  TimeSeries.freq self = Ok step →
  0 < step ∧ uniform step (TimeSeries.time_index self).
Proof.
  intros (Hlen & _ & _ & Hs & Hnd & Hf)%constructed_inv Hr Hstep.
  apply (deltas_single_uniform step); [|unfold TimeSeries.time_index; by rewrite length_index|done..].
  by eapply inferred_freq_tick.
Qed.

(** ** The example series are instances *)

Lemma daily5_constructed : TimeSeries.constructed daily5_ts.
Proof. exists daily5, None, None. vm_compute. reflexivity. Defined.

Lemma weekly3_constructed : TimeSeries.constructed weekly3_ts.
Proof. exists weekly3, None, None. vm_compute. reflexivity. Defined.

Lemma business3_constructed : TimeSeries.constructed business3_ts.
Proof. exists business3, None, None. vm_compute. reflexivity. Defined.

Lemma month_starts3_constructed : TimeSeries.constructed month_starts3_ts.
Proof. exists month_starts3, None, None. vm_compute. reflexivity. Defined.

(** ** Slicing *)

(** Line 94 reads [s_a.indey]: on a series that is present the inner function
    of [slice] raises AttributeError, whatever the bounds. *)
Lemma slice_not_none_Some (start_ts end_ts : Timestamp) (s : Series) :
  TimeSeries._slice_not_none start_ts end_ts (Some s) = Err AttributeError.
Proof. reflexivity. Qed.

(** [slice] once its three assertions hold. *)
Lemma slice_past_assertions (self : TimeSeries.t) (start_ts end_ts t0 tn : Timestamp) :
  TimeSeries.start_time self = Ok t0 → TimeSeries.end_time self = Ok tn →
  start_ts < end_ts → t0 ≤ end_ts → start_ts ≤ tn →
  TimeSeries.slice self start_ts end_ts = Err AttributeError.
Proof.
  intros H0 Hn Horder Hend Hstart. unfold TimeSeries.slice.
  assert ((start_ts <? end_ts) = true) as -> by lia.
  res_simpl. rewrite H0. res_simpl.
  assert ((t0 <=? end_ts) = true) as -> by lia.
  res_simpl. rewrite Hn. res_simpl.
  assert ((start_ts <=? tn) = true) as -> by lia.
  reflexivity.
Qed.

(** [slice] with [end_ts <= start_ts]: the first assertion fails. *)
Lemma slice_order_violated (self : TimeSeries.t) (start_ts end_ts : Timestamp) :
  end_ts ≤ start_ts →
  TimeSeries.slice self start_ts end_ts = Err (AssertionError assert_slice_order).
Proof.
  intros Hle. unfold TimeSeries.slice.
  assert ((start_ts <? end_ts) = false) as -> by lia. reflexivity.
Qed.

(** No call of [slice] returns. *)
Lemma slice_never_returns (self : TimeSeries.t) (start_ts end_ts : Timestamp) :
  ¬ is_Ok (TimeSeries.slice self start_ts end_ts).
Proof.
  intros [r Hr]. unfold TimeSeries.slice in Hr.
  repeat match type of Hr with
         | (_ ≫= _) = Ok _ => apply bind_Ok_inv in Hr as (? & ? & Hr)
         end.
  discriminate.
Qed.

(** C1 (as the code has it): for every instance and every [start_ts], [end_ts]
    that meet the three preconditions of [slice] (end after start, end not
    before the first timestamp, start not after the last), [slice] does not
    return the elements of the closed interval: it raises AttributeError, at
    the read of [s_a.indey] on line 94. *)
Theorem slice_raises_AttributeError (self : TimeSeries.t) (start_ts end_ts : Timestamp) :
  TimeSeries.constructed self →
  start_ts < end_ts →
  (∀ t0, TimeSeries.start_time self = Ok t0 → t0 ≤ end_ts) →
  (∀ tn, TimeSeries.end_time self = Ok tn → start_ts ≤ tn) →
  TimeSeries.slice self start_ts end_ts = Err AttributeError.
Proof.
  intros (Hlen & _)%constructed_inv Horder Hend Hstart.
  destruct (TimeSeries.start_time self) as [t0|e] eqn:H0; last first.
  { unfold TimeSeries.start_time in H0. rewrite <- length_index in Hlen.
    destruct (index _); [simpl in Hlen; lia | done]. }
  destruct (TimeSeries.end_time self) as [tn|e] eqn:Hn; last first.
  { unfold TimeSeries.end_time in Hn. rewrite <- length_index in Hlen.
    destruct (index _) as [|x l] using rev_ind; [simpl in Hlen; lia|].
    by rewrite last_snoc in Hn. }
  eapply slice_past_assertions; eauto.
Qed.

(** The example of the specification: the daily series 01-01..01-05 with
    values 1..5, sliced from 01-02 to 01-04. *)
Lemma slice_raises_AttributeError_witness :
  TimeSeries.slice daily5_ts (jan 2) (jan 4) = Err AttributeError.
Proof.
  apply slice_raises_AttributeError.
  - exact daily5_constructed.
  - vm_compute. reflexivity.
  - intros t0 [= <-]. vm_compute. discriminate.
  - intros tn [= <-]. vm_compute. discriminate.
Defined.

(** ** Splitting *)

(** [split] at a timestamp of the index other than the first, once
    [freq()] has returned and the start of the second part is a timestamp:
    the first call of [slice] passes its assertions. *)
Lemma split_first_slice (self : TimeSeries.t) (ts t0 step start2 : Timestamp) :
  TimeSeries.constructed self →
  TimeSeries.start_time self = Ok t0 →
  TimeSeries.freq self = Ok step →
  Timestamp_add ts step = Ok start2 →
  ts ∈ TimeSeries.time_index self → ts ≠ t0 →
  TimeSeries.split self ts = Err AttributeError.
Proof.
  intros Hc H0 Hf Hadd Hin Hne.
  destruct (constructed_order self t0 Hc H0) as (tn & Hn & Hspan & Hbetween).
  destruct (Hbetween ts Hin) as [Hle Hlt].
  unfold TimeSeries.split. rewrite bool_decide_eq_true_2 by done.
  res_simpl. rewrite Hf. res_simpl. rewrite Hadd. res_simpl.
  rewrite H0. res_simpl.
  rewrite (slice_past_assertions self t0 ts t0 tn) by (done || lia). done.
Qed.

(** C4 (as the code has it): for every instance whose frequency has a
    duration and every timestamp [ts] of its index other than the first,
    [split] returns no pair of series: once [ts + freq()] is computed (it
    raises OutOfBoundsDatetime when the sum leaves the 64-bit range of
    timestamps), the first of the two calls of [slice] passes the
    assertions and raises AttributeError. *)
Theorem split_raises_AttributeError (self : TimeSeries.t) (ts t0 step : Timestamp) :
  TimeSeries.constructed self →
  TimeSeries.start_time self = Ok t0 →
  TimeSeries.freq self = Ok step →
  ts ∈ TimeSeries.time_index self → ts ≠ t0 →
  TimeSeries.split self ts =
    match Timestamp_add ts step with
    | Ok _ => Err AttributeError
    | Err e => Err e
    end.
Proof.
  intros Hc H0 Hf Hin Hne.
  destruct (Timestamp_add ts step) as [start2|e] eqn:Hadd.
  - by eapply split_first_slice.
  - unfold TimeSeries.split. rewrite bool_decide_eq_true_2 by done.
    res_simpl. rewrite Hf. res_simpl. by rewrite Hadd.
Qed.

(** The example of the specification: the same series split at 01-03. *)
Lemma split_raises_AttributeError_witness :
  TimeSeries.split daily5_ts (jan 3) = Err AttributeError.
Proof.
  apply (split_raises_AttributeError daily5_ts (jan 3) (jan 1) ONE_DAY).
  - exact daily5_constructed.
  - reflexivity.
  - reflexivity.
  - vm_compute. set_solver.
  - vm_compute. discriminate.
Defined.

(** C6 (amended): for every instance, [split] at the first timestamp does not
    return.  When the frequency has a duration (and one step after the first
    timestamp is a timestamp, as it is on every instance) the first call is
    [slice(start_time(), start_time())], which fails the strict assertion
    [end_ts > start_ts] of [slice], an InvalidRange error; when [freq()]
    itself raises, or the addition of line 77 does, [split] raises that
    error before it slices. *)
Theorem split_at_start_time (self : TimeSeries.t) (t0 : Timestamp) :
  TimeSeries.start_time self = Ok t0 →
  TimeSeries.split self t0 =
    match TimeSeries.freq self with
    | Ok step =>
        match Timestamp_add t0 step with
        | Ok _ => Err (AssertionError assert_slice_order)
        | Err e => Err e
        end
    | Err e => Err e
    end ∧
  kind_of (AssertionError assert_slice_order) = Some InvalidRange.
Proof.
  intros H0. split; [|done].
  pose proof (start_time_Ok _ _ H0) as Hhd.
  unfold TimeSeries.split. rewrite bool_decide_eq_true_2; last first.
  { unfold TimeSeries.time_index in Hhd. destruct (index _); simplify_eq/=. set_solver. }
  res_simpl.
  destruct (TimeSeries.freq self) as [step|e]; [|done].
  res_simpl. destruct (Timestamp_add t0 step) as [start2|e]; [|done].
  res_simpl. rewrite H0. res_simpl.
  by rewrite slice_order_violated.
Qed.

Lemma split_at_start_time_witness :
  TimeSeries.split daily5_ts (jan 1) = Err (AssertionError assert_slice_order).
Proof.
  exact (proj1 (split_at_start_time daily5_ts (jan 1) eq_refl)).
Defined.

(** C6 fails on the daily series of five: it has length 5, and [split] at its
    first timestamp returns no pair, so no first part of length 1. *)
Lemma split_at_start_time_counterexample :
  TimeSeries.constructed daily5_ts ∧ (2 ≤ TimeSeries.__len__ daily5_ts)%nat ∧
  TimeSeries.start_time daily5_ts = Ok (jan 1) ∧
  ¬ is_Ok (TimeSeries.split daily5_ts (jan 1)).
Proof.
  split; [exact daily5_constructed|]. split; [vm_compute; lia|]. split; [reflexivity|].
  intros [r Hr]. vm_compute in Hr. discriminate.
Qed.

(** ** Construction and spacing *)


(** C3 fails a second way: Thursday 2020-01-02, Friday 01-03 and Monday
    01-06 are one and three days apart, and the constructor accepts them
    all the same: pandas names the index by its business-day rule. *)
Lemma init_business_days_constructs :
  diffs (index (sort_index business3)) = [ONE_DAY; 3 * ONE_DAY] ∧
  TimeSeries.__init__ business3 None None = Ok business3_ts.
Proof. split; vm_compute; reflexivity. Qed.

(** The example of the specification, 01-01, 01-02 and 01-04 (one day
    missing), does fail the frequency assertion. *)
Lemma init_missing_day_fails :
  TimeSeries.__init__ (delete 2%nat (take 4 daily5)) None None
    = Err (AssertionError assert_freq).
Proof. vm_compute. reflexivity. Qed.



(** ** Confidence bounds at construction *)

(** C5 (as the code has it): on a main series that constructs on its own,
    supplying any bound, as lower or as upper one, makes the constructor raise
    ValueError.  This holds for a bound whose timestamps are exactly those of
    the main series, where the claim has construction succeed, and for a
    bound whose timestamps differ, where the claim has it fail with
    ConfidenceIndexMismatch; ValueError is none of the error kinds. *)
Theorem init_with_bound_raises_ValueError (series : Series) (lo hi : option Series) :
  is_Ok (TimeSeries.__init__ series None None) →
  is_Some lo ∨ is_Some hi →
  TimeSeries.__init__ series lo hi = Err ValueError ∧ kind_of ValueError = None.
Proof.
  intros [self Hself] Hbound. split; [|done].
  apply init_Ok in Hself as (_ & _ & _ & Hf & _).
  pose proof (inferred_freq_length _ _ Hf) as Hlen. rewrite length_index in Hlen.
  assert (1 ≤ length series)%nat by (rewrite length_sort_index in Hlen; lia).
  unfold TimeSeries.__init__. rewrite bool_decide_eq_true_2 by done.
  res_simpl. rewrite Hf.
  destruct lo as [c|].
  { by rewrite check_confidence_Some by lia. }
  destruct hi as [c|].
  { by rewrite (check_confidence_Some assert_conf_hi) by lia. }
  destruct Hbound as [[? [=]]|[? [=]]].
Qed.

(** The daily series of five with itself as lower bound: same timestamps,
    same order, and the constructor raises ValueError. *)
Lemma init_with_bound_raises_ValueError_witness :
  TimeSeries.__init__ daily5 (Some daily5) None = Err ValueError.
Proof.
  apply (init_with_bound_raises_ValueError daily5 (Some daily5) None).
  - exists daily5_ts. vm_compute. reflexivity.
  - left. exists daily5. reflexivity.
Defined.

(** No instance carries a bound. *)
Lemma constructed_no_bounds (self : TimeSeries.t) :
  TimeSeries.constructed self →
  TimeSeries.conf_lo_pd_series self = None ∧ TimeSeries.conf_hi_pd_series self = None.
Proof. by intros (_ & ? & ? & _)%constructed_inv. Qed.

(** ** Combination *)

(** The inner function of [_combine_from_pd_ops] does what it is meant to:
    a bound is combined when both operands have it and absent otherwise. *)
Lemma combine_or_none_Some (a b : option Series) (f : Series → Series → Series) r :
  TimeSeries._combine_or_none a b f = Some r ↔ ∃ x y, a = Some x ∧ b = Some y ∧ r = f x y.
Proof.
  destruct a as [x|], b as [y|]; simpl; split; try done.
  - intros [= <-]. eauto.
  - by intros (? & ? & [= ->] & [= ->] & ->).
  - by intros (? & ? & _ & ? & _).
  - by intros (? & ? & ? & _).
  - by intros (? & ? & ? & _).
Qed.

(** The assertion of line 161 between two instances never gets a truth value:
    each index has three or more timestamps. *)
Lemma same_time_assertion_raises (self other : TimeSeries.t) :
  TimeSeries.constructed self → TimeSeries.constructed other →
  (TimeSeries.has_same_time_as self other ≫= truth) = Err ValueError.
Proof.
  intros (Hlen & _)%constructed_inv _. unfold TimeSeries.has_same_time_as.
  apply index_eq_truth. unfold TimeSeries.time_index. rewrite length_index. lia.
Qed.

Lemma combine_raises (self other : TimeSeries.t) (f : Series → Series → Series) :
  TimeSeries.constructed self → TimeSeries.constructed other →
  TimeSeries._combine_from_pd_ops self other f = Err ValueError.
Proof.
  intros Hs Ho. pose proof (same_time_assertion_raises self other Hs Ho) as Hraise.
  unfold TimeSeries._combine_from_pd_ops.
  destruct (TimeSeries.has_same_time_as self other) as [cmp|e];
    cbn [mbind result_bind] in Hraise |- *.
  - by rewrite Hraise.
  - by injection Hraise as ->.
Qed.

Lemma zip_with_eqb_refl (l : list Timestamp) :
  zip_with Z.eqb l l = replicate (length l) true.
Proof.
  induction l as [|x l IH]; [done|].
  cbn [zip_with length replicate]. by rewrite Z.eqb_refl, IH.
Qed.

(** C2 (as the code has it): for every two instances and every combining
    function, [_combine_from_pd_ops] raises ValueError.  It does so when the
    two timestamp sequences are equal, where the claim has the combination
    succeed, and when they differ, where the claim has it fail with
    IndexMismatch: the comparison of line 146 is elementwise, and line 161
    asserts the resulting array. *)
Theorem combine_raises_ValueError (self other : TimeSeries.t)
    (combine_fn : Series → Series → Series) :
  TimeSeries.constructed self → TimeSeries.constructed other →
  TimeSeries._combine_from_pd_ops self other combine_fn = Err ValueError ∧
  (TimeSeries.time_index self = TimeSeries.time_index other →
   TimeSeries.has_same_time_as self other =
     Ok (replicate (length (TimeSeries.time_index self)) true)) ∧
  kind_of ValueError ≠ Some IndexMismatch.
Proof.
  intros Hs Ho. split; [by apply combine_raises|]. split; [|done].
  intros Heq. unfold TimeSeries.has_same_time_as, index_eq. rewrite Heq.
  rewrite bool_decide_eq_true_2 by done. f_equal. apply zip_with_eqb_refl.
Qed.

(** The daily series of five combined with itself. *)
Lemma combine_raises_ValueError_witness :
  TimeSeries._combine_from_pd_ops daily5_ts daily5_ts (binop PrimFloat.add) = Err ValueError.
Proof.
  exact (proj1 (combine_raises_ValueError daily5_ts daily5_ts (binop PrimFloat.add)
                  daily5_constructed daily5_constructed)).
Defined.

(** C7 (as the code has it): for every two instances, none of the four
    operators returns a result, with or without bounds: each raises
    ValueError at the assertion of line 161.  Neither operand can carry a
    bound in the first place. *)
Theorem operators_return_no_bounds (self other : TimeSeries.t) :
  TimeSeries.constructed self → TimeSeries.constructed other →
  TimeSeries.__add__ self other = Err ValueError ∧
  TimeSeries.__sub__ self other = Err ValueError ∧
  TimeSeries.__mul__ self other = Err ValueError ∧
  TimeSeries.__truediv__ self other = Err ValueError ∧
  TimeSeries.conf_lo_pd_series self = None ∧ TimeSeries.conf_lo_pd_series other = None.
Proof.
  intros Hs Ho. repeat split; try by apply combine_raises.
  - by apply constructed_no_bounds.
  - by apply constructed_no_bounds.
Qed.

Lemma operators_return_no_bounds_witness :
  TimeSeries.__add__ daily5_ts daily5_ts = Err ValueError.
Proof.
  exact (proj1 (operators_return_no_bounds daily5_ts daily5_ts
                  daily5_constructed daily5_constructed)).
Defined.

(** ** Duration and frequency *)

(** [freq()] of an instance: [to_timedelta] of the offset of the inferred
    alias, a duration for a tick alias and ValueError for any other. *)
Lemma freq_tick_or_raises (self : TimeSeries.t) :
  TimeSeries.freq self =
  if is_tick (base (TimeSeries.freq_str self)) then TimeSeries.freq self
  else Err ValueError.
Proof. apply to_timedelta_tick. Qed.

Lemma whole_weeks (d : Timedelta) :
  d `mod` (7 * ONE_DAY) = 0 → d `mod` ONE_DAY = 0 ∧ (d `div` ONE_DAY) `mod` 7 = 0.
Proof.
  change ONE_DAY with 86400000000000. change (7 * 86400000000000) with 604800000000000.
  intros. Z.div_mod_to_equations. lia.
Qed.

(** An index spaced by a whole number of days never gets a tick alias when
    the number of days is a multiple of seven: pandas names it by a
    calendar rule or as a number of weeks. *)
Lemma inferred_freq_weeks (idx : list Timestamp) (f : freq_str) (d : Timedelta) :
  inferred_freq idx = Some f → deltas idx = [d] → d ≠ 0 → d `mod` (7 * ONE_DAY) = 0 →
  is_tick (base f) = false.
Proof.
  unfold inferred_freq, get_freq. intros Hf Hd Hnz Hweek.
  case_bool_decide; [done|]. destruct (negb _ || negb _); [done|].
  rewrite Hd in Hf. cbv zeta in Hf. cbn [head from_option id] in Hf.
  destruct (whole_weeks d Hweek) as [Hday Hdays].
  unfold _is_multiple in Hf at 1. rewrite Hday in Hf.
  assert ((d =? 0) = false) as Hnz' by lia. rewrite Hnz' in Hf.
  change (0 =? 0) with true in Hf. cbn [negb andb] in Hf.
  unfold _infer_daily_rule in Hf.
  destruct (_get_annual_rule idx); [by injection Hf as <-|].
  destruct (_get_quarterly_rule idx); [by injection Hf as <-|].
  destruct (_get_monthly_rule idx); [by injection Hf as <-|].
  unfold is_unique, _get_daily_rule in Hf. rewrite Hd in Hf.
  cbn [length head from_option id] in Hf. rewrite bool_decide_eq_true_2 in Hf by done.
  rewrite Hdays in Hf. by injection Hf as <-.
Qed.

(** The weekly series: it constructs, its timestamps are seven days apart,
    its duration is fourteen days, and [freq()] raises ValueError. *)
Lemma weekly3_freq_raises :
  TimeSeries.__init__ weekly3 None None = Ok weekly3_ts ∧
  uniform (7 * ONE_DAY) (TimeSeries.time_index weekly3_ts) ∧
  TimeSeries.duration weekly3_ts = Ok (14 * ONE_DAY) ∧
  TimeSeries.freq weekly3_ts = Err ValueError.
Proof.
  split; [vm_compute; reflexivity|]. split; [vm_compute; repeat constructor|].
  split; vm_compute; reflexivity.
Qed.

(** C10 (as the code has it): on every instance whose timestamps are a whole
    number of weeks apart, [freq()] does not return the spacing: it raises
    ValueError, so there is no frequency for [duration()] to be a multiple
    of.  (The timestamps are taken within the range pandas can hold.) *)
Theorem freq_raises_on_weekly_step (self : TimeSeries.t) (d : Timedelta) :
  TimeSeries.constructed self →
  representable (TimeSeries.time_index self) →
  uniform d (TimeSeries.time_index self) →
  d `mod` (7 * ONE_DAY) = 0 →
  TimeSeries.freq self = Err ValueError.
Proof.
  intros (Hlen & _ & _ & Hs & Hnd & Hf)%constructed_inv Hr Hu Hweek.
  rewrite <- length_index in Hlen. fold (TimeSeries.time_index self) in Hlen.
  pose proof (Sorted_gaps _ Hs Hnd Hr) as Hgaps.
  assert (deltas (TimeSeries.time_index self) = [wrap64 d]) as Hd
    by (apply deltas_uniform; [lia | done]).
  assert (0 < d ≤ I64_MAX) as Hrange.
  { unfold uniform, representable, in_bounds, iNaT, I64_MAX in *.
    destruct (TimeSeries.time_index self) as [|t0 [|t1 [|t2 l]]]; simpl in Hlen; [lia..|].
    rewrite !diffs_cons in Hu, Hgaps.
    apply Forall_cons in Hu as [H1 [H2 _]%Forall_cons].
    apply Forall_cons in Hgaps as [G1 [G2 _]%Forall_cons].
    apply Forall_cons in Hr as [R0 [_ [R2 _]%Forall_cons]%Forall_cons].
    lia. }
  rewrite wrap64_small in Hd by (unfold I64_MAX in Hrange; lia).
  rewrite freq_tick_or_raises. unfold TimeSeries.freq_str.
  by rewrite (inferred_freq_weeks _ _ d Hf Hd) by (done || lia).
Qed.

Lemma freq_raises_on_weekly_step_witness :
  TimeSeries.freq weekly3_ts = Err ValueError.
Proof.
  apply (freq_raises_on_weekly_step weekly3_ts (7 * ONE_DAY)).
  - exact weekly3_constructed.
  - apply representable_forallb. reflexivity.
  - vm_compute. repeat constructor.
  - reflexivity.
Defined.

(** ** The tabular factory *)

(** Reindexing a column whose row labels hold no timestamp onto timestamps
    finds nothing: every value is NaN. *)
Lemma reindex_no_timestamp (idx : list label) (col : list float) (times : list Timestamp) :
  Forall (λ l, ∀ t, l ≠ label_time t) idx → NoDup idx → times ≠ [] →
  reindex idx col (label_time <$> times) = Ok (replicate (length times) nan).
Proof.
  intros Hno Hdup Hne. unfold reindex.
  destruct (decide (idx = label_time <$> times)) as [->|_].
  { destruct times as [|t times]; [done|].
    apply Forall_cons in Hno as [Hno _]. by destruct (Hno t). }
  rewrite bool_decide_eq_true_2 by done. cbn [orb]. f_equal.
  clear Hne. induction times as [|t times IH]; [done|].
  cbn [fmap list_fmap length replicate]. f_equal; [|exact IH].
  destruct (list_find _ _) as [[i [l v]]|] eqn:Hfind; [|done].
  apply list_find_Some in Hfind as (Hi & Hl & _). simpl in Hl. subst l.
  apply list_elem_of_lookup_2, elem_of_zip_l in Hi.
  rewrite Forall_forall in Hno. by destruct (Hno _ Hi t).
Qed.

(** Without bound columns the factory does what the specification words: the
    value column goes through [.values] and is paired by position. *)
Lemma from_dataframe_no_bounds parse (df : DataFrame) (time_col value_col : string) :
  TimeSeries.from_dataframe parse df time_col value_col None None =
  from_dataframe_positional parse df time_col value_col None None.
Proof. reflexivity. Qed.

(** C8 (as the code has it): take any table whose row labels are distinct
    and hold no timestamp (the default labels 0, 1, 2, ... are such), with a
    time column that parses to one or more timestamps and float columns of
    that length.  When a lower bound column is selected, the bound that
    [from_dataframe] hands to the constructor is not the column paired with
    the timestamps by position: it holds NaN at every timestamp, the outcome
    of reindexing the column by label.  The value column is paired by
    position. *)
Theorem from_dataframe_bound_by_label parse (df : DataFrame)
    (time_col value_col lo_col : string)
    (raw : list raw_time) (times : list Timestamp) (data lo_data : list float) :
  getitem_times df time_col = Ok raw → to_datetime parse raw = Ok times →
  getitem_floats df value_col = Ok data → getitem_floats df lo_col = Ok lo_data →
  length data = length times → length lo_data = length times → times ≠ [] →
  Forall (λ l, ∀ t, l ≠ label_time t) (df_index df) → NoDup (df_index df) →
  TimeSeries.from_dataframe_series parse df time_col value_col (Some lo_col) None =
    Ok (zip times data, Some (zip times (replicate (length times) nan)), None) ∧
  from_dataframe_positional_series parse df time_col value_col (Some lo_col) None =
    Ok (zip times data, Some (zip times lo_data), None).
Proof.
  intros Hraw Htimes Hdata Hlo Hlen Hlen_lo Hne Hno Hdup.
  unfold TimeSeries.from_dataframe_series, from_dataframe_positional_series.
  rewrite Hraw. res_simpl. rewrite Htimes. res_simpl.
  rewrite Hdata. res_simpl.
  unfold TimeSeries.optional_column, optional_positional, Series_of_column.
  rewrite Hlo. res_simpl.
  rewrite reindex_no_timestamp by done. res_simpl.
  unfold Series_new. rewrite !bool_decide_eq_true_2; [done|done|done|].
  by rewrite length_replicate.
Qed.

(** The table of three rows: the bound column 0.5, 1.5, 2.5 reaches the
    constructor as NaN, NaN, NaN. *)
Lemma from_dataframe_bound_by_label_witness :
  TimeSeries.from_dataframe_series no_text table3 "time" "value" (Some "lo") None =
    Ok ([(jan 1, 1%float); (jan 2, 2%float); (jan 3, 3%float)],
        Some [(jan 1, nan); (jan 2, nan); (jan 3, nan)], None) ∧
  from_dataframe_positional_series no_text table3 "time" "value" (Some "lo") None =
    Ok ([(jan 1, 1%float); (jan 2, 2%float); (jan 3, 3%float)],
        Some [(jan 1, 0.5%float); (jan 2, 1.5%float); (jan 3, 2.5%float)], None).
Proof.
  apply (from_dataframe_bound_by_label no_text table3 "time" "value" "lo"
           [raw_stamp (jan 1); raw_stamp (jan 2); raw_stamp (jan 3)]
           [jan 1; jan 2; jan 3] [1%float; 2%float; 3%float]
           [0.5%float; 1.5%float; 2.5%float]).
  - vm_compute. reflexivity.
  - vm_compute. reflexivity.
  - vm_compute. reflexivity.
  - vm_compute. reflexivity.
  - reflexivity.
  - reflexivity.
  - discriminate.
  - repeat constructor; intros t; discriminate.
  - refine (bool_decide_unpack _ _). vm_compute. exact I.
Defined.

(** On that table the constructor raises for either bound (see
    [init_with_bound_raises_ValueError]), so the bound by label does not
    reach a caller. *)
Lemma table3_both_raise :
  TimeSeries.from_dataframe no_text table3 "time" "value" (Some "lo") None = Err ValueError ∧
  from_dataframe_positional no_text table3 "time" "value" (Some "lo") None = Err ValueError.
Proof. split; vm_compute; reflexivity. Qed.

(** The two bounds differ: 0.5 is not NaN. *)
Lemma table3_bounds_differ :
  [(jan 1, nan); (jan 2, nan); (jan 3, nan)] ≠
  [(jan 1, 0.5%float); (jan 2, 1.5%float); (jan 3, 2.5%float)].
Proof.
  intros Heq. apply (f_equal (λ s, is_nan <$> values s)) in Heq.
  vm_compute in Heq. discriminate.
Qed.

(** ** Accessors and aliasing *)

(** After construction the instance stores the values of the sorted input. *)
Lemma store_init_Ok (series : Series) (lo hi : option Series)
    (h0 h : Store.heap) (self : Store.instance) :
  Store.__init__ series lo hi h0 = Ok (self, h) →
  Store.stored_values h self = Some (values (sort_index series)) ∧
  Store.s_index (Store._series self) = index (sort_index series) ∧
  (∀ l, l ≠ Store.s_data (Store._series self) → h !! l = h0 !! l).
Proof.
  unfold Store.__init__.
  destruct (TimeSeries.__init__ series lo hi) as [ts|e] eqn:Hinit; [|done].
  apply init_Ok in Hinit as (_ & _ & Hs & _ & Hlo & Hhi).
  rewrite Hs, Hlo, Hhi. intros [= <- <-].
  unfold Store.stored_values. cbn.
  split; [by rewrite lookup_insert_eq|]. split; [done|].
  intros l Hl. by rewrite lookup_insert_ne.
Qed.

(** C9 (as the code has it): [values()] returns the array of the stored
    series, not a copy.  For every instance the constructor makes, a caller
    that writes [v] at a position [i] of the array it got from [values()]
    changes the values the instance stores. *)
Theorem values_handle_writes_instance (series : Series) (lo hi : option Series)
    (h0 h : Store.heap) (self : Store.instance) (i : nat) (v : float) :
  Store.__init__ series lo hi h0 = Ok (self, h) →
  (i < length series)%nat →
  ∃ h', (arr ← Store.values self; Store.ndarray_setitem arr i v) h = Ok ((), h') ∧
        Store.stored_values h' self = Some (<[i:=v]> (values (sort_index series))).
Proof.
  intros (Hstored & _)%store_init_Ok Hi.
  unfold Store.stored_values in *.
  eexists. split.
  - unfold Store.values, Store.Series_values, Store.ndarray_setitem.
    unfold mbind, Store.M_bind, mret, Store.M_ret. rewrite Hstored.
    rewrite bool_decide_eq_true_2; [done|].
    unfold values. by rewrite length_fmap, length_sort_index.
  - by rewrite lookup_insert_eq.
Qed.

(** The daily series of five: after [ts.values()[0] = 99] the instance
    stores 99, 2, 3, 4, 5. *)
Lemma values_handle_writes_instance_witness :
  ∃ self h h',
    Store.__init__ daily5 None None ∅ = Ok (self, h) ∧
    (arr ← Store.values self; Store.ndarray_setitem arr 0 99%float) h = Ok ((), h') ∧
    Store.stored_values h self = Some [1; 2; 3; 4; 5]%float ∧
    Store.stored_values h' self = Some [99; 2; 3; 4; 5]%float.
Proof.
  destruct (Store.__init__ daily5 None None ∅) as [[self h]|e] eqn:Hinit;
    [|by vm_compute in Hinit].
  destruct (values_handle_writes_instance daily5 None None ∅ h self 0 99%float Hinit)
    as (h' & Hwrite & Hstored); [vm_compute; lia|].
  exists self, h, h'. split; [done|]. split; [done|].
  split; [|exact Hstored].
  by apply store_init_Ok in Hinit as (-> & _).
Defined.

(** The sibling accessor [pd_series()] copies: a write through the Series it
    returns leaves the instance as it was. *)
Lemma pd_series_handle_is_copy (self : Store.instance) (h h1 h2 : Store.heap)
    (s : Store.series_obj) (i : nat) (v : float) :
  is_Some (Store.stored_values h self) →
  Store.pd_series self h = Ok (s, h1) →
  Store.ndarray_setitem (Store.s_data s) i v h1 = Ok ((), h2) →
  Store.stored_values h2 self = Store.stored_values h self.
Proof.
  unfold Store.stored_values, Store.pd_series, Store.Series_copy, Store.read,
    Store.alloc, Store.ndarray_setitem.
  unfold mbind, Store.M_bind, mret, Store.M_ret.
  intros [vs Hvs]. rewrite Hvs. intros [= <- <-]. cbn [Store.s_data].
  assert (fresh (dom h) ≠ Store.s_data (Store._series self)) as Hfresh.
  { intros Heq. apply (is_fresh (dom h)). rewrite Heq. by apply elem_of_dom. }
  rewrite lookup_insert_eq. case_bool_decide; [|done]. intros [= <-].
  by rewrite !lookup_insert_ne.
Qed.

(** * Further properties of the class *)

(** ** Sorting by label *)

(** The sorted index depends on the labels only, not on their order. *)
Lemma sorted_index_Permutation (s s' : Series) :
  s ≡ₚ s' → index (sort_index s) = index (sort_index s').
Proof.
  intros Hperm. apply (Sorted_unique Z.le).
  - apply index_sort_index_Sorted.
  - apply index_sort_index_Sorted.
  - unfold index. by rewrite !sort_index_Permutation, Hperm.
Qed.

(** Rows with distinct labels are told apart by their label. *)
Lemma distinct_labels_inj (s : Series) (x y : Z * float) :
  NoDup (index s) → x ∈ s → y ∈ s → x.1 = y.1 → x = y.
Proof.
  unfold index. induction s as [|z s IH]; [by intros _ ?%elem_of_nil|].
  rewrite fmap_cons, NoDup_cons, !elem_of_cons. intros [Hz Hs] [->|Hx] [->|Hy] Heq.
  - done.
  - destruct Hz. rewrite Heq. by apply list_elem_of_fmap_2.
  - destruct Hz. rewrite <- Heq. by apply list_elem_of_fmap_2.
  - by apply IH.
Qed.

(** Two sorted arrangements of the same rows are equal when the labels are
    distinct. *)
Lemma sorted_rows_unique (s s' : Series) :
  NoDup (index s) → Sorted label_le s → Sorted label_le s' → s ≡ₚ s' → s = s'.
Proof.
  intros Hdup Hs Hs' Hperm. apply (Sorted_unique_strong label_le); [|done..].
  intros x y Hx Hy Hxy Hyx. rewrite <- Hperm in Hy.
  apply (distinct_labels_inj s); [done..|]. unfold label_le in *. lia.
Qed.

(** ** The index of an instance *)

(** Sorting a series that is stored in an instance changes nothing. *)
Lemma sort_index_stored (series : Series) (f : freq_str) :
  inferred_freq (index (sort_index series)) = Some f →
  sort_index (sort_index series) = sort_index series.
Proof.
  intros Hf. symmetry. apply sorted_rows_unique.
  - by eapply inferred_freq_NoDup.
  - apply sort_index_Sorted.
  - apply sort_index_Sorted.
  - symmetry. apply sort_index_Permutation.
Qed.

(** ** The constructor *)

(** X1: the outcome of the constructor on any input, in the order of its
    checks: an empty series fails the first assertion; else a sorted index
    with no inferred frequency fails the frequency assertion; else a supplied
    bound raises ValueError; else the instance holds the sorted series, the
    inferred alias and no bound. *)
Theorem init_outcome (series : Series) (lo hi : option Series) :
  TimeSeries.__init__ series lo hi =
  match series with
  | [] => Err (AssertionError assert_nonempty)
  | _ :: _ =>
      match inferred_freq (index (sort_index series)), lo, hi with
      | None, _, _ => Err (AssertionError assert_freq)
      | Some f, None, None =>
          Ok {| TimeSeries._series := sort_index series; TimeSeries._freq := f;
                TimeSeries._confidence_lo := None; TimeSeries._confidence_hi := None |}
      | Some f, _, _ => Err ValueError
      end
  end.
Proof.
  unfold TimeSeries.__init__. destruct series as [|row series]; [done|].
  rewrite bool_decide_eq_true_2 by (simpl; lia). res_simpl.
  destruct (inferred_freq _) as [f|] eqn:Hf; [|done].
  apply inferred_freq_length in Hf as Hlen. rewrite length_index in Hlen.
  destruct lo as [c|].
  { by rewrite check_confidence_Some by lia. }
  destruct hi as [c|]; [|done].
  by rewrite (check_confidence_Some assert_conf_hi) by lia.
Qed.

(** X2: construction reorders the rows and does nothing else to them: the
    stored series is a permutation of the input, the length is the input's,
    and a timestamp is paired with a value by the accessors exactly when it
    is in the input. *)
Theorem init_keeps_rows (series : Series) (lo hi : option Series) (self : TimeSeries.t) :
  TimeSeries.__init__ series lo hi = Ok self →
  TimeSeries.pd_series self ≡ₚ series ∧
  TimeSeries.__len__ self = length series ∧
  ∀ t v, (t, v) ∈ zip (TimeSeries.time_index self) (TimeSeries.values self)
         ↔ (t, v) ∈ series.
Proof.
  intros (_ & _ & Hs & _)%init_Ok.
  unfold TimeSeries.pd_series, TimeSeries.__len__, TimeSeries.time_index,
    TimeSeries.values, index, values.
  rewrite zip_fst_snd, Hs. split; [apply sort_index_Permutation|].
  split; [apply length_sort_index|].
  intros t v. by rewrite sort_index_Permutation.
Qed.

Lemma init_keeps_rows_witness :
  TimeSeries.pd_series daily5_ts ≡ₚ reverse daily5 ∧
  TimeSeries.__len__ daily5_ts = length (reverse daily5) ∧
  ∀ t v, (t, v) ∈ zip (TimeSeries.time_index daily5_ts) (TimeSeries.values daily5_ts)
         ↔ (t, v) ∈ reverse daily5.
Proof.
  apply (init_keeps_rows (reverse daily5) None None daily5_ts).
  vm_compute. reflexivity.
Defined.

(** X3: the constructor does not depend on the order of the input rows: two
    inputs with the same rows in any order give the same outcome, the same
    instance or the same error. *)
Theorem init_order_insensitive (series series' : Series) (lo hi : option Series) :
  series ≡ₚ series' →
  TimeSeries.__init__ series lo hi = TimeSeries.__init__ series' lo hi.
Proof.
  intros Hperm. unfold TimeSeries.__init__.
  rewrite (Permutation_length Hperm).
  destruct (py_assert _ _); [|done]. res_simpl.
  rewrite <- (sorted_index_Permutation series series' Hperm).
  destruct (inferred_freq _) as [f|] eqn:Hf; [|done].
  assert (sort_index series = sort_index series') as <-; [|done].
  apply sorted_rows_unique.
  - by eapply inferred_freq_NoDup.
  - apply sort_index_Sorted.
  - apply sort_index_Sorted.
  - etrans; [apply sort_index_Permutation|].
    etrans; [exact Hperm|]. symmetry. apply sort_index_Permutation.
Qed.

Lemma init_order_insensitive_witness :
  TimeSeries.__init__ (reverse daily5) None None = TimeSeries.__init__ daily5 None None.
Proof.
  apply init_order_insensitive. apply reverse_Permutation.
Defined.



(** X5: [start_time()] and [end_time()] of an instance are the earliest and
    the latest timestamp of the input it was made from, the first strictly
    before the second. *)
Theorem start_end_enclose_input (series : Series) (lo hi : option Series)
    (self : TimeSeries.t) :
  TimeSeries.__init__ series lo hi = Ok self →
  ∃ t0 tn, TimeSeries.start_time self = Ok t0 ∧ TimeSeries.end_time self = Ok tn ∧
    t0 < tn ∧ t0 ∈ index series ∧ tn ∈ index series ∧
    ∀ t, t ∈ index series → t0 ≤ t ≤ tn.
Proof.
  intros Hinit.
  assert (TimeSeries.constructed self) as Hc by (by exists series, lo, hi).
  apply init_Ok in Hinit as (_ & _ & Hs & _).
  assert (∀ t, t ∈ TimeSeries.time_index self ↔ t ∈ index series) as Hmem.
  { intros t. unfold TimeSeries.time_index, index. by rewrite Hs, sort_index_Permutation. }
  pose proof Hc as (Hlen & _)%constructed_inv.
  destruct (TimeSeries.start_time self) as [t0|e] eqn:H0; last first.
  { unfold TimeSeries.start_time in H0. rewrite <- length_index in Hlen.
    destruct (index (TimeSeries._series self)); [simpl in Hlen; lia | done]. }
  destruct (constructed_order self t0 Hc H0) as (tn & Hn & Hspan & Hbetween).
  exists t0, tn. split; [done|]. split; [done|]. split; [done|].
  split; [by apply Hmem, head_Some_elem_of, start_time_Ok|].
  split; [by apply Hmem, last_Some_elem_of, end_time_Ok|].
  intros t Ht%Hmem. by apply Hbetween.
Qed.

Lemma start_end_enclose_input_witness :
  ∃ t0 tn, TimeSeries.start_time daily5_ts = Ok t0 ∧ TimeSeries.end_time daily5_ts = Ok tn ∧
    t0 < tn ∧ t0 ∈ index (reverse daily5) ∧ tn ∈ index (reverse daily5) ∧
    ∀ t, t ∈ index (reverse daily5) → t0 ≤ t ≤ tn.
Proof.
  apply (start_end_enclose_input (reverse daily5) None None daily5_ts).
  vm_compute. reflexivity.
Defined.

(** ** Factories *)

(** Constructing again from the series of an instance gives the instance. *)
Lemma init_stored_series (self : TimeSeries.t) :
  TimeSeries.constructed self →
  TimeSeries.__init__ (TimeSeries._series self) None None = Ok self.
Proof.
  intros (series & lo & hi & (_ & _ & Hs & Hf & Hlo & Hhi)%init_Ok).
  rewrite init_outcome, Hs, (sort_index_stored series _ Hf), Hf.
  pose proof (inferred_freq_length _ _ Hf) as Hlen. rewrite length_index in Hlen.
  destruct (sort_index series) eqn:Hsorted; [simpl in Hlen; lia|].
  destruct self; simpl in *. by subst.
Qed.

(** X6: round trip through the accessors: handing [time_index()] and
    [values()] of an instance to [from_times_and_values] gives that instance
    back. *)
Theorem from_times_and_values_of_accessors (self : TimeSeries.t) :
  TimeSeries.constructed self →
  TimeSeries.from_times_and_values
    (TimeSeries.time_index self) (TimeSeries.values self) None None = Ok self.
Proof.
  intros Hc. unfold TimeSeries.from_times_and_values, Series_new,
    TimeSeries.time_index, TimeSeries.values, index, values.
  rewrite bool_decide_eq_true_2 by (by rewrite !length_fmap).
  rewrite zip_fst_snd. res_simpl. simpl. by apply init_stored_series.
Qed.

Lemma from_times_and_values_of_accessors_witness :
  TimeSeries.from_times_and_values
    (TimeSeries.time_index daily5_ts) (TimeSeries.values daily5_ts) None None
  = Ok daily5_ts.
Proof. exact (from_times_and_values_of_accessors daily5_ts daily5_constructed). Defined.

Lemma Sorted_rows_of_index (s : Series) : Sorted Z.le (index s) → Sorted label_le s.
Proof.
  unfold index. induction s as [|x s IH]; [constructor|].
  rewrite fmap_cons. intros [Hs Hhd]%Sorted_inv. constructor; [by apply IH|].
  destruct s; [constructor|]. apply HdRel_inv in Hhd. by constructor.
Qed.

Lemma optional_series_Ok (data : option (list float)) (times : list Timestamp) :
  TimeSeries.optional_series data times = Ok None → data = None.
Proof.
  destruct data as [d|]; [|done]. unfold TimeSeries.optional_series.
  by destruct (Series_new d times).
Qed.

(** X7: what a successful call of [from_times_and_values] tells: the two
    arrays had the same length and no bound array was passed; the instance
    holds the timestamps and the values of the arrays, reordered by time; and
    when the timestamps came in ascending order, [time_index()] and
    [values()] are the two arrays as they were passed. *)
Theorem from_times_and_values_Ok (times : list Timestamp) (vals : list float)
    (lo hi : option (list float)) (self : TimeSeries.t) :
  TimeSeries.from_times_and_values times vals lo hi = Ok self →
  length vals = length times ∧ lo = None ∧ hi = None ∧
  TimeSeries.pd_series self = sort_index (zip times vals) ∧
  (Sorted Z.le times →
   TimeSeries.time_index self = times ∧ TimeSeries.values self = vals).
Proof.
  unfold TimeSeries.from_times_and_values, Series_new.
  case_bool_decide as Hlen; [|done]. res_simpl.
  intros (slo & Hlo & (shi & Hhi & Hinit)%bind_Ok_inv)%bind_Ok_inv.
  apply init_Ok in Hinit as (-> & -> & Hs & Hf & _).
  split; [done|].
  apply optional_series_Ok in Hlo, Hhi. split; [done|]. split; [done|].
  split; [done|]. intros Hsorted.
  assert (sort_index (zip times vals) = zip times vals) as Hid.
  { apply sorted_rows_unique.
    - by eapply inferred_freq_NoDup.
    - apply sort_index_Sorted.
    - apply Sorted_rows_of_index. unfold index. by rewrite fst_zip by lia.
    - apply sort_index_Permutation. }
  unfold TimeSeries.time_index, TimeSeries.values, index, values.
  rewrite Hs, Hid. split; [apply fst_zip | apply snd_zip]; lia.
Qed.

Lemma from_times_and_values_Ok_witness :
  TimeSeries.time_index daily5_ts = [jan 1; jan 2; jan 3; jan 4; jan 5] ∧
  TimeSeries.values daily5_ts = [1; 2; 3; 4; 5]%float.
Proof.
  apply (from_times_and_values_Ok [jan 1; jan 2; jan 3; jan 4; jan 5]
           [1; 2; 3; 4; 5]%float None None daily5_ts).
  - vm_compute. reflexivity.
  - repeat constructor; vm_compute; discriminate.
Defined.

Lemma optional_column_Ok (df : DataFrame) (col : option string)
    (times : list Timestamp) :
  TimeSeries.optional_column df col times = Ok None → col = None.
Proof.
  destruct col as [c|]; [|done]. unfold TimeSeries.optional_column.
  destruct (getitem_floats df c); [|done]. res_simpl.
  by destruct (Series_of_column _ _ _).
Qed.

(** X8: what a successful call of [from_dataframe] tells: no bound column
    was selected, the time column and the value column exist, every entry
    of the time column was parsed, the two columns have the same length, and
    the instance holds the parsed timestamps paired with the value column by
    position, sorted by time. *)
Theorem from_dataframe_Ok (parse : string → option Timestamp) (df : DataFrame)
    (time_col value_col : string) (conf_lo_col conf_hi_col : option string)
    (self : TimeSeries.t) :
  TimeSeries.from_dataframe parse df time_col value_col conf_lo_col conf_hi_col = Ok self →
  conf_lo_col = None ∧ conf_hi_col = None ∧
  ∃ raw times data,
    getitem_times df time_col = Ok raw ∧ to_datetime parse raw = Ok times ∧
    getitem_floats df value_col = Ok data ∧ length data = length times ∧
    TimeSeries.pd_series self = sort_index (zip times data).
Proof.
  unfold TimeSeries.from_dataframe, TimeSeries.from_dataframe_series.
  intros ([[series lo] hi] & Hargs & Hinit)%bind_Ok_inv.
  apply bind_Ok_inv in Hargs as (raw & Hraw & Hargs).
  apply bind_Ok_inv in Hargs as (times & Htimes & Hargs).
  apply bind_Ok_inv in Hargs as (data & Hdata & Hargs).
  apply bind_Ok_inv in Hargs as (series' & Hseries & Hargs).
  apply bind_Ok_inv in Hargs as (lo' & Hlo & Hargs).
  apply bind_Ok_inv in Hargs as (hi' & Hhi & [= <- <- <-]).
  apply init_Ok in Hinit as (-> & -> & Hs & _).
  apply optional_column_Ok in Hlo, Hhi. split; [done|]. split; [done|].
  exists raw, times, data. unfold Series_new in Hseries.
  case_bool_decide; [|done]. injection Hseries as <-. done.
Qed.

Lemma from_dataframe_Ok_witness :
  ∃ self, TimeSeries.from_dataframe no_text table3 "time" "value" None None = Ok self ∧
          TimeSeries.values self = [1; 2; 3]%float.
Proof.
  destruct (TimeSeries.from_dataframe no_text table3 "time" "value" None None)
    as [self|e] eqn:Hcall; [|by vm_compute in Hcall].
  exists self. split; [done|].
  destruct (from_dataframe_Ok _ _ _ _ _ _ _ Hcall)
    as (_ & _ & raw & times & data & Hraw & Htimes & Hdata & _ & Hs).
  vm_compute in Hraw. injection Hraw as <-.
  vm_compute in Htimes. injection Htimes as <-.
  vm_compute in Hdata. injection Hdata as <-.
  unfold TimeSeries.values, TimeSeries.pd_series in *. rewrite Hs.
  vm_compute. reflexivity.
Defined.

(** ** Slicing and splitting, case by case *)

(** X9: the outcome of [slice] on an instance, in the order of its checks:
    an end not after the start fails the first assertion, an end before the
    first timestamp the second, a start after the last timestamp the third
    (all three InvalidRange errors); every other call raises AttributeError
    on line 94.  No call returns. *)
Theorem slice_outcome (self : TimeSeries.t) (start_ts end_ts t0 tn : Timestamp) :
  TimeSeries.start_time self = Ok t0 → TimeSeries.end_time self = Ok tn →
  TimeSeries.slice self start_ts end_ts =
    Err (if bool_decide (end_ts ≤ start_ts) then AssertionError assert_slice_order
         else if bool_decide (end_ts < t0) then AssertionError assert_slice_end
         else if bool_decide (tn < start_ts) then AssertionError assert_slice_start
         else AttributeError).
Proof.
  intros H0 Hn. case_bool_decide as Horder; [by apply slice_order_violated|].
  case_bool_decide as Hend.
  { unfold TimeSeries.slice. assert ((start_ts <? end_ts) = true) as -> by lia.
    res_simpl. rewrite H0. res_simpl.
    by assert ((t0 <=? end_ts) = false) as -> by lia. }
  case_bool_decide as Hstart.
  { unfold TimeSeries.slice. assert ((start_ts <? end_ts) = true) as -> by lia.
    res_simpl. rewrite H0. res_simpl.
    assert ((t0 <=? end_ts) = true) as -> by lia.
    res_simpl. rewrite Hn. res_simpl.
    by assert ((start_ts <=? tn) = false) as -> by lia. }
  apply (slice_past_assertions self start_ts end_ts t0 tn); (done || lia).
Qed.

Lemma slice_outcome_witness :
  TimeSeries.slice daily5_ts (jan 6) (jan 7) = Err (AssertionError assert_slice_start).
Proof. exact (slice_outcome daily5_ts (jan 6) (jan 7) (jan 1) (jan 5) eq_refl eq_refl). Defined.

(** X10: [slice_duration] first adds the duration to the start (line 108),
    which raises OutOfBoundsDatetime when the sum leaves the 64-bit range
    of timestamps; when it does not, a zero or negative duration fails the
    first assertion of [slice], an InvalidRange error, on any instance. *)
Theorem slice_duration_not_positive (self : TimeSeries.t) (start_ts : Timestamp)
    (duration : Timedelta) :
  duration ≤ 0 →
  TimeSeries.slice_duration self start_ts duration =
    Err (if fits_int64 (start_ts + duration) then AssertionError assert_slice_order
         else OutOfBoundsDatetime) ∧
  kind_of (AssertionError assert_slice_order) = Some InvalidRange.
Proof.
  intros Hd. split; [|done]. unfold TimeSeries.slice_duration, Timestamp_add.
  destruct (fits_int64 _); [|done]. res_simpl.
  apply slice_order_violated. lia.
Qed.

Lemma slice_duration_not_positive_witness :
  TimeSeries.slice_duration daily5_ts (jan 2) 0 = Err (AssertionError assert_slice_order) ∧
  TimeSeries.slice_duration daily5_ts (- I64_MAX) (- ONE_DAY) = Err OutOfBoundsDatetime.
Proof.
  split.
  - apply (slice_duration_not_positive daily5_ts (jan 2) 0). lia.
  - apply (slice_duration_not_positive daily5_ts (- I64_MAX) (- ONE_DAY)). done.
Defined.

(** X11: the outcome of [split] on an instance, in the order of its steps: a
    timestamp that is not in the index fails the membership assertion (a
    TimestampNotFound error) before anything else; else an error of [freq()]
    is raised as it is; else [ts + freq()] raises OutOfBoundsDatetime when it
    leaves the 64-bit range of timestamps; else the first timestamp fails the
    strict assertion of [slice]; every other timestamp of the index raises
    AttributeError.  No call returns. *)
Theorem split_outcome (self : TimeSeries.t) (ts t0 : Timestamp) :
  TimeSeries.constructed self →
  TimeSeries.start_time self = Ok t0 →
  TimeSeries.split self ts =
    Err (if bool_decide (ts ∈ TimeSeries.time_index self) then
           match TimeSeries.freq self with
           | Err e => e
           | Ok step =>
               if fits_int64 (ts + step) then
                 if bool_decide (ts = t0) then AssertionError assert_slice_order
                 else AttributeError
               else OutOfBoundsDatetime
           end
         else AssertionError assert_split_member).
Proof.
  intros Hc H0. case_bool_decide as Hin; last first.
  { unfold TimeSeries.split. fold (TimeSeries.time_index self).
    by rewrite bool_decide_eq_false_2. }
  destruct (TimeSeries.freq self) as [step|e] eqn:Hf; last first.
  { unfold TimeSeries.split. fold (TimeSeries.time_index self).
    rewrite bool_decide_eq_true_2 by done. res_simpl. by rewrite Hf. }
  destruct (fits_int64 (ts + step)) eqn:Hb; last first.
  { unfold TimeSeries.split. fold (TimeSeries.time_index self).
    rewrite bool_decide_eq_true_2 by done. res_simpl. rewrite Hf. res_simpl.
    unfold Timestamp_add. by rewrite Hb. }
  assert (Timestamp_add ts step = Ok (ts + step)) as Hadd
    by (unfold Timestamp_add; by rewrite Hb).
  case_bool_decide as Hts; [|by eapply split_first_slice].
  subst ts. unfold TimeSeries.split. fold (TimeSeries.time_index self).
  rewrite bool_decide_eq_true_2 by done. res_simpl. rewrite Hf. res_simpl.
  rewrite Hadd. res_simpl. rewrite H0. res_simpl.
  by rewrite slice_order_violated.
Qed.

Lemma split_outcome_witness :
  TimeSeries.split daily5_ts (jan 6) = Err (AssertionError assert_split_member) ∧
  TimeSeries.split weekly3_ts (jan 8) = Err ValueError ∧
  TimeSeries.split month_starts3_ts (jan 214) = Err ValueError.
Proof.
  split; [|split].
  - exact (split_outcome daily5_ts (jan 6) (jan 1) daily5_constructed eq_refl).
  - exact (split_outcome weekly3_ts (jan 8) (jan 1) weekly3_constructed eq_refl).
  - exact (split_outcome month_starts3_ts (jan 214) (jan 183)
             month_starts3_constructed eq_refl).
Defined.

(** ** Comparing the indexes of two instances *)

Lemma zip_with_eqb_all_true (l k : list Timestamp) :
  length l = length k → (Forall (eq true) (zip_with Z.eqb l k) ↔ l = k).
Proof.
  revert k. induction l as [|x l IH]; intros [|y k] Hlen; simplify_eq/=.
  - split; [done | constructor].
  - rewrite Forall_cons, (IH k Hlen). split.
    + intros [Hxy ->]. symmetry in Hxy. apply Z.eqb_eq in Hxy. by subst.
    + intros [= -> ->]. by rewrite Z.eqb_refl.
Qed.

(** X12: [has_same_time_as] returns a value exactly when the two indexes have
    the same length (else it raises ValueError), and the value is an array
    with one boolean per timestamp, all of them true exactly when the two
    timestamp sequences are equal. *)
Theorem has_same_time_as_elementwise (self other : TimeSeries.t) :
  (length (TimeSeries.time_index self) ≠ length (TimeSeries.time_index other) →
   TimeSeries.has_same_time_as self other = Err ValueError) ∧
  (length (TimeSeries.time_index self) = length (TimeSeries.time_index other) →
   ∃ arr, TimeSeries.has_same_time_as self other = Ok arr ∧
          length arr = length (TimeSeries.time_index self) ∧
          (Forall (eq true) arr ↔
           TimeSeries.time_index self = TimeSeries.time_index other)).
Proof.
  unfold TimeSeries.has_same_time_as, index_eq. split; intros Hlen.
  - by rewrite bool_decide_eq_false_2.
  - rewrite bool_decide_eq_true_2 by done. eexists. split; [done|].
    split; [rewrite length_zip_with; lia|].
    rewrite zip_with_eqb_all_true by done. split; congruence.
Qed.

Lemma has_same_time_as_elementwise_witness :
  ∃ arr, TimeSeries.has_same_time_as daily5_ts daily5_ts = Ok arr ∧
         length arr = length (TimeSeries.time_index daily5_ts) ∧
         (Forall (eq true) arr ↔
          TimeSeries.time_index daily5_ts = TimeSeries.time_index daily5_ts).
Proof.
  apply (proj2 (has_same_time_as_elementwise daily5_ts daily5_ts)). reflexivity.
Defined.

(** ** The frequency as a duration *)



(** ** Accessors that copy *)

(** X14: [pd_series()] returns a Series with the index and the values of the
    stored one in a buffer of its own: the instance is as it was when the
    call returns, and stays so whatever the caller writes into the Series it
    got. *)
Theorem pd_series_returns_copy (self : Store.instance) (h : Store.heap)
    (vs : list float) :
  Store.stored_values h self = Some vs →
  ∃ s h1, Store.pd_series self h = Ok (s, h1) ∧
    Store.s_data s ≠ Store.s_data (Store._series self) ∧
    Store.s_index s = Store.s_index (Store._series self) ∧
    h1 !! Store.s_data s = Some vs ∧
    Store.stored_values h1 self = Some vs ∧
    ∀ i v h2, Store.ndarray_setitem (Store.s_data s) i v h1 = Ok ((), h2) →
              Store.stored_values h2 self = Some vs.
Proof.
  intros Hvs. unfold Store.stored_values in *.
  assert (fresh (dom h) ≠ Store.s_data (Store._series self)) as Hfresh.
  { intros Heq. apply (is_fresh (dom h)). rewrite Heq. by apply elem_of_dom. }
  exists {| Store.s_index := Store.s_index (Store._series self);
            Store.s_data := fresh (dom h) |}, (<[fresh (dom h):=vs]> h).
  assert (Store.pd_series self h =
          Ok ({| Store.s_index := Store.s_index (Store._series self);
                 Store.s_data := fresh (dom h) |}, <[fresh (dom h):=vs]> h)) as Hcall.
  { unfold Store.pd_series, Store.Series_copy, Store.read, Store.alloc.
    unfold mbind, Store.M_bind, mret, Store.M_ret. by rewrite Hvs. }
  split; [done|]. cbn [Store.s_data Store.s_index].
  split; [done|]. split; [done|]. split; [by rewrite lookup_insert_eq|].
  split; [by rewrite lookup_insert_ne|].
  intros i v h2 Hwrite.
  pose proof (pd_series_handle_is_copy self h _ h2 _ i v
                (ex_intro _ vs Hvs) Hcall Hwrite) as Hkeep.
  unfold Store.stored_values in Hkeep. by rewrite Hkeep.
Qed.

Lemma pd_series_returns_copy_witness :
  ∃ self h s h1,
    Store.__init__ daily5 None None ∅ = Ok (self, h) ∧
    Store.pd_series self h = Ok (s, h1) ∧
    Store.s_data s ≠ Store.s_data (Store._series self) ∧
    h1 !! Store.s_data s = Some [1; 2; 3; 4; 5]%float.
Proof.
  destruct (Store.__init__ daily5 None None ∅) as [[self h]|e] eqn:Hinit;
    [|by vm_compute in Hinit].
  pose proof Hinit as (Hstored & _)%store_init_Ok.
  destruct (pd_series_returns_copy self h _ Hstored)
    as (s & h1 & Hcall & Hne & _ & Hcopy & _).
  exists self, h, s, h1. split; [reflexivity|]. split; [exact Hcall|].
  split; [exact Hne|]. rewrite Hcopy. vm_compute. reflexivity.
Defined.

(** X15: an instance carries no bound, so the two bound accessors return
    None and leave the store as it is. *)
Theorem conf_accessors_return_None (series : Series) (lo hi : option Series)
    (h0 h : Store.heap) (self : Store.instance) :
  Store.__init__ series lo hi h0 = Ok (self, h) →
  Store.conf_lo_pd_series self h = Ok (None, h) ∧
  Store.conf_hi_pd_series self h = Ok (None, h).
Proof.
  unfold Store.__init__.
  destruct (TimeSeries.__init__ series lo hi) as [ts|e] eqn:Hinit; [|done].
  apply init_Ok in Hinit as (_ & _ & _ & _ & Hlo & Hhi).
  rewrite Hlo, Hhi. by intros [= <- <-].
Qed.

Lemma conf_accessors_return_None_witness :
  ∃ self h, Store.__init__ daily5 None None ∅ = Ok (self, h) ∧
            Store.conf_lo_pd_series self h = Ok (None, h) ∧
            Store.conf_hi_pd_series self h = Ok (None, h).
Proof.
  destruct (Store.__init__ daily5 None None ∅) as [[self h]|e] eqn:Hinit;
    [|by vm_compute in Hinit].
  exists self, h. split; [done|].
  exact (conf_accessors_return_None daily5 None None ∅ h self Hinit).
Defined.
